(** * ChatBox: the stateful chat component of the research assistant front end

    A shallow embedding of [ChatBox] (frontend/pages/index.tsx): its React
    state as a record, its event handlers as resumable programs over that
    record, and the properties of its document selection, query dispatch,
    session token, transcript and workflow log. *)

From Stdlib Require Import String Ascii DecimalString.
From Stdlib Require Import List Bool Arith NArith Lia.
Import ListNotations.

(** ** JavaScript strings

    A JavaScript string is a sequence of UTF-16 code units. *)

Definition code_unit := N.
Definition jsstring := list code_unit.

(** A literal whose characters are all ASCII. *)
Definition lit (s : string) : jsstring :=
  map N_of_ascii (list_ascii_of_string s).
Arguments lit s%_string.

Definition str_eq_dec : forall a b : jsstring, {a = b} + {a <> b} :=
  list_eq_dec N.eq_dec.

(** [a === b] on strings. *)
Definition str_eqb (a b : jsstring) : bool :=
  if str_eq_dec a b then true else false.

(** Truthiness of a string: every string but the empty one. *)
Definition truthy (s : jsstring) : bool :=
  match s with
  | [] => false
  | _ :: _ => true
  end.

(** Truthiness of a possibly undefined string. *)
Definition truthy_opt (o : option jsstring) : bool :=
  match o with
  | Some s => truthy s
  | None => false
  end.

(** ECMAScript WhiteSpace and LineTerminator code points, the ones
    [String.prototype.trim] strips. *)
Definition is_white_space (c : code_unit) : bool :=
  existsb (N.eqb c)
    [9; 10; 11; 12; 13; 32; 160; 5760; 8232; 8233; 8239; 8287; 12288; 65279]%N
  || ((8192 <=? c) && (c <=? 8202))%N.

Fixpoint trimStart (s : jsstring) : jsstring :=
  match s with
  | [] => []
  | c :: s' => if is_white_space c then trimStart s' else s
  end.

Definition trimEnd (s : jsstring) : jsstring :=
  rev (trimStart (rev s)).

Definition trim (s : jsstring) : jsstring :=
  trimEnd (trimStart s).

(** The decimal numeral of [n]: what [String(n)] is for an integer that a
    JavaScript number holds exactly and prints in full (up to 2^53). *)
Definition N_to_str (n : N) : jsstring :=
  lit (NilEmpty.string_of_uint (N.to_uint n)).

(** [String(undefined)]: what a template literal shows for a missing key. *)
Definition undefined_text : jsstring := lit "undefined".

(** ** Data model *)

Inductive Role := user | assistant.

Record Message := { role : Role; content : jsstring }.

Record Document := {
  doc_id : jsstring;
  original_filename : jsstring;
  file_type : jsstring;
  upload_date : jsstring;
  chunks : N
}.

(** The component's state: one field per [useState] cell. *)
Record State := {
  messages : list Message;
  input : jsstring;
  uploading : bool;
  uploadStatus : jsstring;
  documents : list Document;
  selectedDocIds : list jsstring;
  showMultiSelect : bool;
  useAgents : bool;
  workflowLog : list jsstring;
  isProcessing : bool;
  currentAgent : jsstring;
  sessionId : jsstring
}.

(** The state of the first render. *)
Definition initial : State := {|
  messages := [];
  input := [];
  uploading := false;
  uploadStatus := [];
  documents := [];
  selectedDocIds := [];
  showMultiSelect := false;
  useAgents := true;
  workflowLog := [];
  isProcessing := false;
  currentAgent := [];
  sessionId := []
|}.

(** State updates: [upd_x f] is what [setX(f)] does to the state when React
    applies it; [setX(v)] is [upd_x (fun _ => v)]. *)
Definition upd_messages (f : list Message -> list Message) (s : State) : State :=
  {| messages := f (messages s); input := input s; uploading := uploading s;
     uploadStatus := uploadStatus s; documents := documents s;
     selectedDocIds := selectedDocIds s; showMultiSelect := showMultiSelect s;
     useAgents := useAgents s; workflowLog := workflowLog s;
     isProcessing := isProcessing s; currentAgent := currentAgent s;
     sessionId := sessionId s |}.

Definition upd_input (f : jsstring -> jsstring) (s : State) : State :=
  {| messages := messages s; input := f (input s); uploading := uploading s;
     uploadStatus := uploadStatus s; documents := documents s;
     selectedDocIds := selectedDocIds s; showMultiSelect := showMultiSelect s;
     useAgents := useAgents s; workflowLog := workflowLog s;
     isProcessing := isProcessing s; currentAgent := currentAgent s;
     sessionId := sessionId s |}.

Definition upd_uploading (f : bool -> bool) (s : State) : State :=
  {| messages := messages s; input := input s; uploading := f (uploading s);
     uploadStatus := uploadStatus s; documents := documents s;
     selectedDocIds := selectedDocIds s; showMultiSelect := showMultiSelect s;
     useAgents := useAgents s; workflowLog := workflowLog s;
     isProcessing := isProcessing s; currentAgent := currentAgent s;
     sessionId := sessionId s |}.

Definition upd_uploadStatus (f : jsstring -> jsstring) (s : State) : State :=
  {| messages := messages s; input := input s; uploading := uploading s;
     uploadStatus := f (uploadStatus s); documents := documents s;
     selectedDocIds := selectedDocIds s; showMultiSelect := showMultiSelect s;
     useAgents := useAgents s; workflowLog := workflowLog s;
     isProcessing := isProcessing s; currentAgent := currentAgent s;
     sessionId := sessionId s |}.

Definition upd_documents (f : list Document -> list Document) (s : State) : State :=
  {| messages := messages s; input := input s; uploading := uploading s;
     uploadStatus := uploadStatus s; documents := f (documents s);
     selectedDocIds := selectedDocIds s; showMultiSelect := showMultiSelect s;
     useAgents := useAgents s; workflowLog := workflowLog s;
     isProcessing := isProcessing s; currentAgent := currentAgent s;
     sessionId := sessionId s |}.

Definition upd_selectedDocIds (f : list jsstring -> list jsstring) (s : State) : State :=
  {| messages := messages s; input := input s; uploading := uploading s;
     uploadStatus := uploadStatus s; documents := documents s;
     selectedDocIds := f (selectedDocIds s); showMultiSelect := showMultiSelect s;
     useAgents := useAgents s; workflowLog := workflowLog s;
     isProcessing := isProcessing s; currentAgent := currentAgent s;
     sessionId := sessionId s |}.

Definition upd_showMultiSelect (f : bool -> bool) (s : State) : State :=
  {| messages := messages s; input := input s; uploading := uploading s;
     uploadStatus := uploadStatus s; documents := documents s;
     selectedDocIds := selectedDocIds s; showMultiSelect := f (showMultiSelect s);
     useAgents := useAgents s; workflowLog := workflowLog s;
     isProcessing := isProcessing s; currentAgent := currentAgent s;
     sessionId := sessionId s |}.

Definition upd_useAgents (f : bool -> bool) (s : State) : State :=
  {| messages := messages s; input := input s; uploading := uploading s;
     uploadStatus := uploadStatus s; documents := documents s;
     selectedDocIds := selectedDocIds s; showMultiSelect := showMultiSelect s;
     useAgents := f (useAgents s); workflowLog := workflowLog s;
     isProcessing := isProcessing s; currentAgent := currentAgent s;
     sessionId := sessionId s |}.

Definition upd_workflowLog (f : list jsstring -> list jsstring) (s : State) : State :=
  {| messages := messages s; input := input s; uploading := uploading s;
     uploadStatus := uploadStatus s; documents := documents s;
     selectedDocIds := selectedDocIds s; showMultiSelect := showMultiSelect s;
     useAgents := useAgents s; workflowLog := f (workflowLog s);
     isProcessing := isProcessing s; currentAgent := currentAgent s;
     sessionId := sessionId s |}.

Definition upd_isProcessing (f : bool -> bool) (s : State) : State :=
  {| messages := messages s; input := input s; uploading := uploading s;
     uploadStatus := uploadStatus s; documents := documents s;
     selectedDocIds := selectedDocIds s; showMultiSelect := showMultiSelect s;
     useAgents := useAgents s; workflowLog := workflowLog s;
     isProcessing := f (isProcessing s); currentAgent := currentAgent s;
     sessionId := sessionId s |}.

Definition upd_currentAgent (f : jsstring -> jsstring) (s : State) : State :=
  {| messages := messages s; input := input s; uploading := uploading s;
     uploadStatus := uploadStatus s; documents := documents s;
     selectedDocIds := selectedDocIds s; showMultiSelect := showMultiSelect s;
     useAgents := useAgents s; workflowLog := workflowLog s;
     isProcessing := isProcessing s; currentAgent := f (currentAgent s);
     sessionId := sessionId s |}.

Definition upd_sessionId (f : jsstring -> jsstring) (s : State) : State :=
  {| messages := messages s; input := input s; uploading := uploading s;
     uploadStatus := uploadStatus s; documents := documents s;
     selectedDocIds := selectedDocIds s; showMultiSelect := showMultiSelect s;
     useAgents := useAgents s; workflowLog := workflowLog s;
     isProcessing := isProcessing s; currentAgent := currentAgent s;
     sessionId := f (sessionId s) |}.

(** ** The backend, as the component sees it *)

(** The file picked in the upload control. *)
Record File := { file_name : jsstring; file_bytes : list N }.

(** The body of a query request, one shape per mode. *)
Module AskV2.
Record payload := {
  query : jsstring;
  top_k : N;
  doc_ids : option (list jsstring);   (* [None] is JSON [null] *)
  session_id : option jsstring        (* [None] is [undefined]: key omitted *)
}.
End AskV2.

Module Ask.
Record payload := {
  query : jsstring;
  top_k : N;
  source : option jsstring            (* [None] is JSON [null] *)
}.
End Ask.

Inductive Payload :=
| AgentPayload (p : AskV2.payload)
| SimplePayload (p : Ask.payload).

Inductive Body :=
| FormData (file : File)
| Json (payload : Payload).

(** What a handler can wait for. *)
Inductive Request :=
| AxiosGet (url : jsstring)
| AxiosPost (url : jsstring) (body : Body)
| Delay (ms : N).

(** [res.data]: the handlers read it untyped, so every field they look at
    may be missing, but [answer], which goes unchecked into a [Message].
    [chunks] is read by a template literal alone: the field holds the text
    the literal shows for it, as JavaScript prints the value received
    ("12", "1e+21", "undefined" for a missing key). *)
Module Res.
Record data := {
  multi_docs : option (list Document);
  filename : option jsstring;
  chunks : jsstring;
  answer : jsstring;
  workflow_log : option (list jsstring);
  session_id : option jsstring
}.
End Res.

(** The rejection of an axios call: [err.response?.data?.detail]. *)
Module Err.
Record data := { detail : option jsstring }.
Record response := { data_ : option data }.
Record error := { response_ : option response }.
End Err.

Inductive Reply :=
| Fulfilled (res : Res.data)
| Rejected (err : Err.error).

(** ** Handlers as resumable programs

    A handler runs on React's single thread up to an [await], where it
    gives the thread back, and is resumed with the reply.  A handler is
    a closure of one render: what it reads of the state ([input],
    [selectedDocIds], ...) is that render's value for as long as it runs,
    while what it writes goes to the state of the moment, directly
    ([setX(v)]) or through an updater ([setX(prev => ...)]). *)

Inductive Async : Type :=
| Return
| Throw (err : Err.error)
| SetState (upd : State -> State) (k : Async)
| Await (r : Request) (k : Reply -> Async)
| SetTimeout (callback : Async) (ms : N) (k : Async)
| ConsoleError (k : Async).

(** [p; q] *)
Fixpoint seq (p q : Async) : Async :=
  match p with
  | Return => q
  | Throw err => Throw err
  | SetState upd k => SetState upd (seq k q)
  | Await r k => Await r (fun reply => seq (k reply) q)
  | SetTimeout cb ms k => SetTimeout cb ms (seq k q)
  | ConsoleError k => ConsoleError (seq k q)
  end.

(** [try { body } catch (err) { handler }] *)
Fixpoint try_catch (body : Async) (handler : Err.error -> Async) : Async :=
  match body with
  | Return => Return
  | Throw err => handler err
  | SetState upd k => SetState upd (try_catch k handler)
  | Await r k => Await r (fun reply => try_catch (k reply) handler)
  | SetTimeout cb ms k => SetTimeout cb ms (try_catch k handler)
  | ConsoleError k => ConsoleError (try_catch k handler)
  end.

(** [try { body } finally { finalizer }] *)
Fixpoint try_finally (body finalizer : Async) : Async :=
  match body with
  | Return => finalizer
  | Throw err => seq finalizer (Throw err)
  | SetState upd k => SetState upd (try_finally k finalizer)
  | Await r k => Await r (fun reply => try_finally (k reply) finalizer)
  | SetTimeout cb ms k => SetTimeout cb ms (try_finally k finalizer)
  | ConsoleError k => ConsoleError (try_finally k finalizer)
  end.

Declare Scope async_scope.
Delimit Scope async_scope with async.
Bind Scope async_scope with Async.
Notation "p ;; q" := (seq p q)
  (at level 61, right associativity) : async_scope.
Local Open Scope async_scope.

(** [await axios.get(..)] / [await axios.post(..)]: a rejection is thrown
    where the call was awaited. *)
Definition await_axios (r : Request) (k : Res.data -> Async) : Async :=
  Await r (fun reply =>
    match reply with
    | Fulfilled res => k res
    | Rejected err => Throw err
    end).

(** [await new Promise(resolve => setTimeout(resolve, ms))] *)
Definition await_timeout (ms : N) : Async :=
  Await (Delay ms) (fun _ => Return).

Definition setMessages (f : list Message -> list Message) : Async :=
  SetState (upd_messages f) Return.
Definition setInput (v : jsstring) : Async :=
  SetState (upd_input (fun _ => v)) Return.
Definition setUploading (v : bool) : Async :=
  SetState (upd_uploading (fun _ => v)) Return.
Definition setUploadStatus (v : jsstring) : Async :=
  SetState (upd_uploadStatus (fun _ => v)) Return.
Definition setDocuments (v : list Document) : Async :=
  SetState (upd_documents (fun _ => v)) Return.
Definition setSelectedDocIds (f : list jsstring -> list jsstring) : Async :=
  SetState (upd_selectedDocIds f) Return.
Definition setShowMultiSelect (v : bool) : Async :=
  SetState (upd_showMultiSelect (fun _ => v)) Return.
Definition setUseAgents (v : bool) : Async :=
  SetState (upd_useAgents (fun _ => v)) Return.
Definition setWorkflowLog (v : list jsstring) : Async :=
  SetState (upd_workflowLog (fun _ => v)) Return.
Definition setIsProcessing (v : bool) : Async :=
  SetState (upd_isProcessing (fun _ => v)) Return.
Definition setCurrentAgent (v : jsstring) : Async :=
  SetState (upd_currentAgent (fun _ => v)) Return.
Definition setSessionId (v : jsstring) : Async :=
  SetState (upd_sessionId (fun _ => v)) Return.

(** ** The handlers of [ChatBox]

    Each takes the render it closes over as [render]. *)

Definition documents_url : jsstring := lit "http://localhost:8000/documents".
Definition upload_url : jsstring := lit "http://localhost:8000/upload-v2".
Definition ask_v2_url : jsstring := lit "http://localhost:8000/ask-v2".
Definition ask_url : jsstring := lit "http://localhost:8000/ask".

(** [x || []] for a possibly missing array [x]. *)
Definition or_empty {A} (x : option (list A)) : list A :=
  match x with
  | Some l => l
  | None => []
  end.

Definition fetchDocuments (render : State) : Async :=
  try_catch
    (await_axios (AxiosGet documents_url) (fun res =>
       let multiDocs := or_empty (Res.multi_docs res) in
       setDocuments multiDocs ;;
       if (0 <? length multiDocs) && (length (selectedDocIds render) =? 0)
       then setSelectedDocIds (fun _ => map doc_id multiDocs)
       else Return))
    (fun err => ConsoleError Return).

(** [prev.includes(docId)] *)
Definition includes (l : list jsstring) (x : jsstring) : bool :=
  existsb (str_eqb x) l.

Definition toggleDocSelection (docId : jsstring) : Async :=
  setSelectedDocIds (fun prev =>
    if includes prev docId
    then filter (fun id => negb (str_eqb id docId)) prev
    else prev ++ [docId]).

Definition selectAllDocs (render : State) : Async :=
  setSelectedDocIds (fun _ => map doc_id (documents render)).

Definition deselectAllDocs : Async :=
  setSelectedDocIds (fun _ => []).

Definition startNewConversation : Async :=
  setMessages (fun _ => []) ;;
  setSessionId [] ;;
  setWorkflowLog [] ;;
  setInput [].

Definition uploading_msg : jsstring := lit "Uploading...".
Definition uploaded_msg (chunks : jsstring) : jsstring :=
  [10003%N] ++ lit " Uploaded: " ++ chunks ++ lit " chunks indexed".
Definition upload_failed_msg : jsstring := [10007%N] ++ lit " Upload failed".

Definition handleFileUpload (render : State) (file : option File) : Async :=
  match file with
  | None => Return
  | Some file =>
      setUploading true ;;
      setUploadStatus uploading_msg ;;
      try_finally
        (try_catch
           (await_axios (AxiosPost upload_url (FormData file)) (fun res =>
              setUploadStatus (uploaded_msg (Res.chunks res)) ;;
              fetchDocuments render ;;
              (match Res.filename res with
               | Some name =>
                   if truthy name
                   then setSelectedDocIds (fun prev => prev ++ [name])
                   else Return
               | None => Return
               end) ;;
              SetTimeout (setUploadStatus []) 3000 Return))
           (fun err => ConsoleError (setUploadStatus upload_failed_msg)))
        (setUploading false)
  end.

Definition initializing_msg : jsstring := lit "Initializing multi-agent workflow...".
Definition processing_msg : jsstring := lit "Processing your query...".
Definition research_msg : jsstring := lit "[1/4] Research Agent: Searching database...".
Definition error_fallback : jsstring := lit "Error contacting backend.".

(** The request [sendMessage] posts, from the render it closes over. *)
Definition endpoint (render : State) : jsstring :=
  if useAgents render then ask_v2_url else ask_url.

Definition payload (render : State) : Payload :=
  let currentQuery := input render in
  if useAgents render then
    AgentPayload {|
      AskV2.query := currentQuery;
      AskV2.top_k := 5;
      AskV2.doc_ids :=
        if 0 <? length (selectedDocIds render)
        then Some (selectedDocIds render) else None;
      AskV2.session_id :=
        if truthy (sessionId render) then Some (sessionId render) else None
    |}
  else
    SimplePayload {|
      Ask.query := currentQuery;
      Ask.top_k := 5;
      Ask.source :=
        if length (selectedDocIds render) =? 1
        then nth_error (selectedDocIds render) 0 else None
    |}.

(** [err.response?.data?.detail] *)
Definition detail_of (err : Err.error) : option jsstring :=
  match Err.response_ err with
  | Some response =>
      match Err.data_ response with
      | Some data => Err.detail data
      | None => None
      end
  | None => None
  end.

(** [err.response?.data?.detail || "Error contacting backend."] *)
Definition errorMsg (err : Err.error) : jsstring :=
  match detail_of err with
  | Some d => if truthy d then d else error_fallback
  | None => error_fallback
  end.

Definition sendMessage (render : State) : Async :=
  if negb (truthy (trim (input render))) || isProcessing render then Return
  else
    let userMessage := {| role := user; content := input render |} in
    setInput [] ;;
    setMessages (fun prev => prev ++ [userMessage]) ;;
    setIsProcessing true ;;
    setWorkflowLog [] ;;
    setCurrentAgent (if useAgents render then initializing_msg else processing_msg) ;;
    try_finally
      (try_catch
         ((if useAgents render
           then setCurrentAgent research_msg ;; await_timeout 300
           else Return) ;;
          await_axios (AxiosPost (endpoint render) (Json (payload render))) (fun res =>
            (if useAgents render
             then match Res.workflow_log res with
                  | Some log => setWorkflowLog log
                  | None => Return
                  end
             else Return) ;;
            (if truthy_opt (Res.session_id res) && negb (truthy (sessionId render))
             then setSessionId (match Res.session_id res with Some id => id | None => [] end)
             else Return) ;;
            let assistantMessage := {| role := assistant; content := Res.answer res |} in
            setMessages (fun prev => prev ++ [assistantMessage]) ;;
            setCurrentAgent []))
         (fun err =>
            ConsoleError (
              let errorMessage := {| role := assistant; content := errorMsg err |} in
              setMessages (fun prev => prev ++ [errorMessage]) ;;
              setCurrentAgent [])))
      (setIsProcessing false).

(** ** The view: which handler each event runs *)

Inductive Event :=
| Mount                              (* useEffect(.., []) *)
| ClickNewChat
| ChangeFile (file : option File)    (* e.target.files?.[0] *)
| ChangeSelect (value : jsstring)    (* the dropdown *)
| ClickSelectSpecific
| ClickBack
| ClickAll
| ClickNone
| ChangeCheckbox (docId : jsstring)
| ChangeUseAgents (checked : bool)
| ChangeInput (value : jsstring)
| KeyDown (key : jsstring)
| ClickSend.

Definition handler (ev : Event) (render : State) : Async :=
  match ev with
  | Mount => fetchDocuments render
  | ClickNewChat => startNewConversation
  | ChangeFile file => handleFileUpload render file
  | ChangeSelect value =>
      if str_eqb value (lit "all") then selectAllDocs render
      else if negb (str_eqb value (lit "custom"))
           then setSelectedDocIds (fun _ => [value])
           else Return
  | ClickSelectSpecific => setShowMultiSelect true
  | ClickBack => setShowMultiSelect false
  | ClickAll => selectAllDocs render
  | ClickNone => deselectAllDocs
  | ChangeCheckbox docId => toggleDocSelection docId
  | ChangeUseAgents checked => setUseAgents checked
  | ChangeInput value => setInput value
  | KeyDown key =>
      if str_eqb key (lit "Enter") && negb (isProcessing render)
      then sendMessage render else Return
  | ClickSend => sendMessage render
  end.

(** ** Running a handler *)

Inductive Effect :=
| Requested (r : Request)
| TimerSet (ms : N) (callback : Async)
| Logged.

Inductive Completion :=
| Normal
| Threw (err : Err.error).

Record Outcome := {
  final : State;
  effects : list Effect;
  completion : Completion
}.

Definition emit (e : Effect) (o : Outcome) : Outcome :=
  {| final := final o; effects := e :: effects o; completion := completion o |}.

(** [run env p s]: [p] run from state [s] to its end, the backend answering
    each request [r] with [env r], and no other handler running while [p]
    waits. *)
Fixpoint run (env : Request -> Reply) (p : Async) (s : State) : Outcome :=
  match p with
  | Return => {| final := s; effects := []; completion := Normal |}
  | Throw err => {| final := s; effects := []; completion := Threw err |}
  | SetState upd k => run env k (upd s)
  | Await r k => emit (Requested r) (run env (k (env r)) s)
  | SetTimeout cb ms k => emit (TimerSet ms cb) (run env k s)
  | ConsoleError k => emit Logged (run env k s)
  end.

(** An event in state [s]: the handler of the render of [s], run from [s]. *)
Definition dispatch (env : Request -> Reply) (ev : Event) (s : State) : Outcome :=
  run env (handler ev s) s.

(** The operations of the component, as the events that invoke them. *)
Definition refresh env s := run env (fetchDocuments s) s.
Definition toggle env docId s := run env (toggleDocSelection docId) s.
Definition selectAll env s := run env (selectAllDocs s) s.
Definition selectNone env s := run env deselectAllDocs s.
Definition reset env s := run env startNewConversation s.
Definition upload env file s := run env (handleFileUpload s file) s.
Definition send env s := run env (sendMessage s) s.

(** The requests among the effects of a run. *)
Definition requests (o : Outcome) : list Request :=
  flat_map (fun e => match e with Requested r => [r] | _ => [] end) (effects o).

Definition is_refresh (r : Request) : bool :=
  match r with
  | AxiosGet url => str_eqb url documents_url
  | _ => false
  end.

(** The ids of the documents of the registry. *)
Definition registry_ids (s : State) : list jsstring := map doc_id (documents s).

(** A bare reply, for a request whose reply goes unread. *)
Definition no_data : Res.data :=
  {| Res.multi_docs := None; Res.filename := None; Res.chunks := undefined_text;
     Res.answer := []; Res.workflow_log := None; Res.session_id := None |}.

(** Where a handler stands when it gives the thread back. *)
Inductive Paused :=
| Finished (c : Completion)
| Waiting (r : Request) (k : Reply -> Async).

(** [advance p s]: [p] run from [s] up to its first [await] or its end:
    the state it leaves, what it did, and where it stands. *)
Fixpoint advance (p : Async) (s : State) : State * list Effect * Paused :=
  match p with
  | Return => (s, [], Finished Normal)
  | Throw err => (s, [], Finished (Threw err))
  | SetState upd k => advance k (upd s)
  | Await r k => (s, [], Waiting r k)
  | SetTimeout cb ms k =>
      let '(s', es, w) := advance k s in (s', TimerSet ms cb :: es, w)
  | ConsoleError k =>
      let '(s', es, w) := advance k s in (s', Logged :: es, w)
  end.

(** The state an event leaves behind before its handler first waits. *)
Definition optimistic (ev : Event) (s : State) : State :=
  fst (fst (advance (handler ev s) s)).

(** The guard of [sendMessage]: [!input.trim() || isProcessing]. *)
Definition refused (s : State) : bool :=
  negb (truthy (trim (input s))) || isProcessing s.

(** What [q] adds to an outcome of [p] that ended normally. *)
Definition and_then (o : Outcome) (q : State -> Outcome) : Outcome :=
  match completion o with
  | Normal =>
      {| final := final (q (final o));
         effects := effects o ++ effects (q (final o));
         completion := completion (q (final o)) |}
  | Threw _ => o
  end.

(** What a handler adds to an outcome of a body that threw. *)
Definition or_else (o : Outcome) (h : Err.error -> State -> Outcome) : Outcome :=
  match completion o with
  | Normal => o
  | Threw err =>
      {| final := final (h err (final o));
         effects := effects o ++ effects (h err (final o));
         completion := completion (h err (final o)) |}
  end.

(** ** Backends to run against *)

(** A backend that answers by kind of request. *)
Definition backend (docs stored answered : Reply) (r : Request) : Reply :=
  match r with
  | AxiosGet _ => docs
  | AxiosPost _ (FormData _) => stored
  | AxiosPost _ (Json _) => answered
  | Delay _ => Fulfilled no_data
  end.

(** No response at all: a network error. *)
Definition unreachable : Reply := Rejected {| Err.response_ := None |}.

(** An HTTP error with [{ detail }] in its body. *)
Definition failing (detail : jsstring) : Reply :=
  Rejected {| Err.response_ :=
    Some {| Err.data_ := Some {| Err.detail := Some detail |} |} |}.

(** [GET /documents] answering [{ multi_docs }]. *)
Definition listing (docs : list Document) : Reply :=
  Fulfilled {| Res.multi_docs := Some docs; Res.filename := None;
               Res.chunks := undefined_text; Res.answer := [];
               Res.workflow_log := None; Res.session_id := None |}.

(** [POST /upload-v2] answering [{ filename, chunks }]. *)
Definition stored_as (name : jsstring) (n : N) : Reply :=
  Fulfilled {| Res.multi_docs := None; Res.filename := Some name;
               Res.chunks := N_to_str n; Res.answer := [];
               Res.workflow_log := None; Res.session_id := None |}.

(** A query answering [{ answer, workflow_log?, session_id? }]. *)
Definition answering (a : jsstring) (log : option (list jsstring))
    (sid : option jsstring) : Reply :=
  Fulfilled {| Res.multi_docs := None; Res.filename := None;
               Res.chunks := undefined_text; Res.answer := a;
               Res.workflow_log := log; Res.session_id := sid |}.

Definition offline : Request -> Reply :=
  backend unreachable unreachable unreachable.

(** A document known by its id alone. *)
Definition doc (id : jsstring) : Document :=
  {| doc_id := id; original_filename := id; file_type := lit "txt";
     upload_date := []; chunks := 1 |}.

(** ** Notions the properties are stated with *)

(** The selection holds no id the registry lacks. *)
Definition selection_in_registry (s : State) : Prop :=
  incl (selectedDocIds s) (registry_ids s).

(** [res.data.filename], when the reply carries a non-empty one. *)
Definition new_id (res : Res.data) : list jsstring :=
  match Res.filename res with
  | Some name => if truthy name then [name] else []
  | None => []
  end.

(** The request a send posts. *)
Definition query_request (s : State) : Request :=
  AxiosPost (endpoint s) (Json (payload s)).

(** The requests of a send that got past the guard, in order: in agentic
    mode the 300 ms pause comes first. *)
Definition send_requests (s : State) : list Request :=
  if useAgents s then [Delay 300; query_request s] else [query_request s].

(** [capture]: the token after a response carrying [sid], for a send issued
    with token [token]. *)
Definition capture (sid : option jsstring) (token : jsstring) : jsstring :=
  if truthy_opt sid && negb (truthy token)
  then match sid with Some id => id | None => [] end
  else token.

(** The state of the component at each point where a run waits, with the
    request it waits for. *)
Fixpoint awaits (env : Request -> Reply) (p : Async) (s : State)
  : list (Request * State) :=
  match p with
  | Return => []
  | Throw _ => []
  | SetState upd k => awaits env k (upd s)
  | Await r k => (r, s) :: awaits env (k (env r)) s
  | SetTimeout _ _ k => awaits env k s
  | ConsoleError k => awaits env k s
  end.

(** The state in which an accepted send waits: the user message appended,
    the input and the workflow log cleared, the processing flag up. *)
Definition pending (s : State) : State :=
  {| messages := messages s ++ [{| role := user; content := input s |}];
     input := [];
     uploading := uploading s;
     uploadStatus := uploadStatus s;
     documents := documents s;
     selectedDocIds := selectedDocIds s;
     showMultiSelect := showMultiSelect s;
     useAgents := useAgents s;
     workflowLog := [];
     isProcessing := true;
     currentAgent := if useAgents s then research_msg else processing_msg;
     sessionId := sessionId s |}.

(** ** What the view derives from the state *)

(** [s.startsWith(prefix)] *)
Fixpoint startsWith (s prefix : jsstring) : bool :=
  match prefix, s with
  | [], _ => true
  | _ :: _, [] => false
  | p :: prefix', c :: s' => N.eqb c p && startsWith s' prefix'
  end.

(** The status line under the upload control: absent while [uploadStatus]
    is empty, green when it starts with the check mark, red otherwise. *)
Inductive Banner := NoBanner | GreenBanner | RedBanner.

Definition statusBanner (s : State) : Banner :=
  if truthy (uploadStatus s)
  then if startsWith (uploadStatus s) [10003%N] then GreenBanner else RedBanner
  else NoBanner.

(** The [value] of the dropdown. *)
Definition selectValue (s : State) : jsstring :=
  if length (selectedDocIds s) =? length (documents s) then lit "all"
  else if 1 <? length (selectedDocIds s) then lit "custom"
  else match nth_error (selectedDocIds s) 0 with
       | Some d => if truthy d then d else []
       | None => []
       end.

(** The [value]s of the options the dropdown renders. *)
Definition selectOptions (s : State) : list jsstring :=
  [lit "all"]
  ++ (if (1 <? length (selectedDocIds s))
         && (length (selectedDocIds s) <? length (documents s))
      then [lit "custom"] else [])
  ++ map doc_id (documents s).

(** The events the view of a state can raise: what it renders, less what
    it disables.  [Mount] is raised once, by the first render. *)
Definition offered (s : State) (ev : Event) : bool :=
  match ev with
  | Mount => false
  | ClickNewChat => truthy (sessionId s)
  | ChangeFile _ => negb (uploading s)
  | ChangeSelect value =>
      (0 <? length (documents s)) && negb (showMultiSelect s)
      && includes (selectOptions s) value
  | ClickSelectSpecific =>
      (0 <? length (documents s)) && negb (showMultiSelect s)
  | ClickBack | ClickAll | ClickNone =>
      (0 <? length (documents s)) && showMultiSelect s
  | ChangeCheckbox docId =>
      (0 <? length (documents s)) && showMultiSelect s
      && includes (map doc_id (documents s)) docId
  | ChangeUseAgents _ => true
  | ChangeInput _ => negb (isProcessing s)
  | KeyDown _ => negb (isProcessing s)
  | ClickSend => negb (isProcessing s || negb (truthy (trim (input s))))
  end.

(** ** Handlers that wait while others run *)

(** [run_among others env p s]: as [run], but while [p] waits for [r] the
    other handlers of the component take the state from [st] to
    [others r st]. *)
Fixpoint run_among (others : Request -> State -> State)
    (env : Request -> Reply) (p : Async) (s : State) : Outcome :=
  match p with
  | Return => {| final := s; effects := []; completion := Normal |}
  | Throw err => {| final := s; effects := []; completion := Threw err |}
  | SetState upd k => run_among others env k (upd s)
  | Await r k =>
      emit (Requested r) (run_among others env (k (env r)) (others r s))
  | SetTimeout cb ms k => emit (TimerSet ms cb) (run_among others env k s)
  | ConsoleError k => emit Logged (run_among others env k s)
  end.

(** The state in which the reply to the query of an accepted send finds
    the component. *)
Definition at_reply (others : Request -> State -> State) (s : State) : State :=
  fold_left (fun st r => others r st) (send_requests s) (pending s).

(** ** The component as a system

    The state on screen, the handlers that wait, each with the event that
    started it, and the timers that are set. *)

Record Task := {
  origin : Event;
  awaiting : Request;
  resume : Reply -> Async
}.

Record System := {
  ui : State;
  tasks : list Task;
  timers : list (Event * Async)
}.

Definition timers_of (ev : Event) (es : list Effect) : list (Event * Async) :=
  flat_map (fun e => match e with TimerSet _ cb => [(ev, cb)] | _ => [] end) es.

(** The system after a handler started by [ev] has run a stretch. *)
Definition settle (ev : Event) (waiting : list Task)
    (set : list (Event * Async)) (a : State * list Effect * Paused) : System :=
  let '(s, es, w) := a in
  {| ui := s;
     tasks := waiting ++
              match w with
              | Waiting r k => [{| origin := ev; awaiting := r; resume := k |}]
              | Finished _ => []
              end;
     timers := set ++ timers_of ev es |}.

(** The first render and its effect. *)
Definition boot : System :=
  settle Mount [] [] (advance (handler Mount initial) initial).

(** One turn of the event loop: an event the view offers, a reply to a
    handler that waits, or a timer that fires. *)
Inductive step : System -> System -> Prop :=
| step_event sys ev :
    offered (ui sys) ev = true ->
    step sys (settle ev (tasks sys) (timers sys)
                (advance (handler ev (ui sys)) (ui sys)))
| step_reply sys before t after reply :
    tasks sys = before ++ t :: after ->
    step sys (settle (origin t) (before ++ after) (timers sys)
                (advance (resume t reply) (ui sys)))
| step_timer sys before ev cb after :
    timers sys = before ++ (ev, cb) :: after ->
    step sys (settle ev (tasks sys) (before ++ after) (advance cb (ui sys))).

Inductive reachable : System -> Prop :=
| reachable_boot : reachable boot
| reachable_step sys sys' : reachable sys -> step sys sys' -> reachable sys'.

Definition is_send (ev : Event) : bool :=
  match ev with
  | ClickSend | KeyDown _ => true
  | _ => false
  end.

Definition is_upload (ev : Event) : bool :=
  match ev with
  | ChangeFile _ => true
  | _ => false
  end.

(** The handlers in flight that events of a kind started. *)
Definition in_flight (kind : Event -> bool) (sys : System) : list Task :=
  filter (fun t => kind (origin t)) (tasks sys).

(** A program that never waits. *)
Fixpoint immediate (p : Async) : Prop :=
  match p with
  | Return => True
  | Throw _ => True
  | SetState _ k => immediate k
  | Await _ _ => False
  | SetTimeout cb _ k => immediate cb /\ immediate k
  | ConsoleError k => immediate k
  end.

Section Flags.
Variable flag : State -> bool.

(** A program that leaves the flag alone, whatever the replies, and so do
    the timers it sets, which never wait. *)
Fixpoint quiet (p : Async) : Prop :=
  match p with
  | Return => True
  | Throw _ => True
  | SetState upd k => (forall s, flag (upd s) = flag s) /\ quiet k
  | Await _ k => forall reply, quiet (k reply)
  | SetTimeout cb _ k => (quiet cb /\ immediate cb) /\ quiet k
  | ConsoleError k => quiet k
  end.

(** A program that leaves the flag alone for as long as it may wait, and
    lowers it as the last thing it does. *)
Fixpoint lowers_at_end (p : Async) : Prop :=
  match p with
  | Return => False
  | Throw _ => False
  | SetState upd k =>
      ((forall s, flag (upd s) = flag s) /\ lowers_at_end k) \/
      ((forall s, flag (upd s) = false) /\
       (k = Return \/ exists err, k = Throw err))
  | Await _ k => forall reply, lowers_at_end (k reply)
  | SetTimeout cb _ k => (quiet cb /\ immediate cb) /\ lowers_at_end k
  | ConsoleError k => lowers_at_end k
  end.

(** The flag is up exactly while one handler of the kind is in flight;
    that handler lowers it at its end, and nothing else touches it. *)
Definition guarded_by (kind : Event -> bool) (sys : System) : Prop :=
  (forall t, In t (tasks sys) -> kind (origin t) = false ->
     forall reply, quiet (resume t reply)) /\
  (forall t, In t (tasks sys) -> kind (origin t) = true ->
     forall reply, lowers_at_end (resume t reply)) /\
  (forall ev cb, In (ev, cb) (timers sys) -> quiet cb /\ immediate cb) /\
  length (in_flight kind sys) = (if flag (ui sys) then 1 else 0).
End Flags.

(** The state an answered query leaves, from the state [st] the reply
    finds: the workflow log and the token are taken by the mode and the
    token of the render that sent the query. *)
Definition answered (render : State) (res : Res.data) (st : State) : State :=
  {| messages := messages st ++ [{| role := assistant; content := Res.answer res |}];
     input := input st;
     uploading := uploading st;
     uploadStatus := uploadStatus st;
     documents := documents st;
     selectedDocIds := selectedDocIds st;
     showMultiSelect := showMultiSelect st;
     useAgents := useAgents st;
     workflowLog :=
       match useAgents render, Res.workflow_log res with
       | true, Some log => log
       | _, _ => workflowLog st
       end;
     isProcessing := false;
     currentAgent := [];
     sessionId :=
       if truthy_opt (Res.session_id res) && negb (truthy (sessionId render))
       then match Res.session_id res with Some id => id | None => [] end
       else sessionId st |}.

(** The state a failed query leaves, from the state [st] the rejection
    finds. *)
Definition failed (err : Err.error) (st : State) : State :=
  {| messages := messages st ++ [{| role := assistant; content := errorMsg err |}];
     input := input st;
     uploading := uploading st;
     uploadStatus := uploadStatus st;
     documents := documents st;
     selectedDocIds := selectedDocIds st;
     showMultiSelect := showMultiSelect st;
     useAgents := useAgents st;
     workflowLog := workflowLog st;
     isProcessing := false;
     currentAgent := [];
     sessionId := sessionId st |}.

(** The events that choose documents. *)
Definition is_selection (ev : Event) : bool :=
  match ev with
  | ChangeSelect _ | ClickAll | ClickNone | ChangeCheckbox _ => true
  | _ => false
  end.

(** The lines of the "Custom Selection" panel: for each of the first three
    selected ids, the file name of the document that has it, if any. *)
Definition previewNames (s : State) : list jsstring :=
  flat_map
    (fun docId =>
       match find (fun d => str_eqb (doc_id d) docId) (documents s) with
       | Some d => [original_filename d]
       | None => []
       end)
    (firstn 3 (selectedDocIds s)).

(** Its last line, "+ n more...", shown when more than three are selected. *)
Definition previewMore (s : State) : option nat :=
  if 3 <? length (selectedDocIds s)
  then Some (length (selectedDocIds s) - 3)
  else None.

(** The system after an event, and after the reply to the [i]th of the
    handlers that wait. *)
Definition after_event (ev : Event) (sys : System) : System :=
  settle ev (tasks sys) (timers sys) (advance (handler ev (ui sys)) (ui sys)).

Definition after_reply (i : nat) (reply : Reply) (sys : System) : System :=
  match nth_error (tasks sys) i with
  | Some t =>
      settle (origin t) (firstn i (tasks sys) ++ skipn (S i) (tasks sys))
        (timers sys) (advance (resume t reply) (ui sys))
  | None => sys
  end.

(** * Properties *)

(** ** Strings, truthiness and the guard of [sendMessage] *)

Lemma str_eqb_eq (a b : jsstring) : str_eqb a b = true <-> a = b.
Proof.
  unfold str_eqb. destruct (str_eq_dec a b); split; congruence.
Qed.

Lemma str_eqb_neq (a b : jsstring) : str_eqb a b = false <-> a <> b.
Proof.
  unfold str_eqb. destruct (str_eq_dec a b); split; congruence.
Qed.

Lemma str_eqb_refl (a : jsstring) : str_eqb a a = true.
Proof. now apply str_eqb_eq. Qed.

Lemma truthy_false (s : jsstring) : truthy s = false <-> s = [].
Proof. destruct s; simpl; split; congruence. Qed.

Lemma truthy_true (s : jsstring) : truthy s = true <-> s <> [].
Proof. destruct s; simpl; split; congruence. Qed.

Lemma includes_In (l : list jsstring) (x : jsstring) :
  includes l x = true <-> In x l.
Proof.
  unfold includes. rewrite existsb_exists. split.
  - intros (y & Hy & E). apply str_eqb_eq in E. now subst.
  - intros H. exists x. split; [assumption | apply str_eqb_refl].
Qed.

Lemma length_pos_nil {A} (l : list A) : (0 <? length l) = false <-> l = [].
Proof. destruct l; cbn; split; congruence. Qed.

Lemma length_zero_nil {A} (l : list A) : (length l =? 0) = true <-> l = [].
Proof. destruct l; simpl; split; congruence. Qed.

(** Blank input: nothing but white space is what [trim] empties. *)
Lemma trimStart_nil (s : jsstring) :
  trimStart s = [] <-> forallb is_white_space s = true.
Proof.
  induction s as [|c s IH]; simpl.
  - tauto.
  - destruct (is_white_space c); simpl; [assumption | split; discriminate].
Qed.

Lemma trimStart_idem (s : jsstring) : trimStart (trimStart s) = trimStart s.
Proof.
  induction s as [|c s IH]; simpl; [reflexivity|].
  destruct (is_white_space c) eqn:E; [assumption | simpl; now rewrite E].
Qed.

Lemma forallb_rev_eq {A} (f : A -> bool) (l : list A) :
  forallb f (rev l) = forallb f l.
Proof.
  induction l as [|a l IH]; simpl; [reflexivity|].
  rewrite forallb_app, IH. simpl. rewrite andb_true_r. apply andb_comm.
Qed.

Lemma trim_nil (s : jsstring) :
  trim s = [] <-> forallb is_white_space s = true.
Proof.
  unfold trim, trimEnd. rewrite <- trimStart_nil. split.
  - intros H. apply (f_equal (@rev _)) in H. rewrite rev_involutive in H.
    simpl in H. apply trimStart_nil in H. rewrite forallb_rev_eq in H.
    apply trimStart_nil in H. now rewrite trimStart_idem in H.
  - intros H. now rewrite H.
Qed.

Lemma refused_true (s : State) :
  refused s = true <-> trim (input s) = [] \/ isProcessing s = true.
Proof.
  unfold refused. rewrite orb_true_iff, negb_true_iff, truthy_false. tauto.
Qed.

Lemma refused_false (s : State) :
  refused s = false <-> trim (input s) <> [] /\ isProcessing s = false.
Proof.
  unfold refused. rewrite orb_false_iff, negb_false_iff, truthy_true. tauto.
Qed.

Lemma sendMessage_refused (s : State) :
  refused s = true -> sendMessage s = Return.
Proof. unfold refused, sendMessage. now intros ->. Qed.

(** ** Laws of running *)

Section Running.
Variable env : Request -> Reply.

Lemma emit_and_then e o q : and_then (emit e o) q = emit e (and_then o q).
Proof. destruct o as [s es [|err]]; reflexivity. Qed.

Lemma emit_or_else e o h : or_else (emit e o) h = emit e (or_else o h).
Proof. destruct o as [s es [|err]]; reflexivity. Qed.

Lemma outcome_eta (o : Outcome) :
  {| final := final o; effects := effects o; completion := completion o |} = o.
Proof. now destruct o. Qed.

Lemma run_seq (p q : Async) (s : State) :
  run env (p ;; q) s = and_then (run env p s) (run env q).
Proof.
  revert s. induction p as [ | err | upd k IH | r k IH | cb _ ms k IH | k IH ];
    intros s; simpl.
  - unfold and_then; simpl. apply eq_sym, outcome_eta.
  - reflexivity.
  - apply IH.
  - now rewrite IH, emit_and_then.
  - now rewrite IH, emit_and_then.
  - now rewrite IH, emit_and_then.
Qed.

Lemma run_try_catch (body : Async) (h : Err.error -> Async) (s : State) :
  run env (try_catch body h) s =
  or_else (run env body s) (fun err => run env (h err)).
Proof.
  revert s. induction body as [ | err | upd k IH | r k IH | cb _ ms k IH | k IH ];
    intros s; simpl.
  - reflexivity.
  - unfold or_else; simpl. apply eq_sym, outcome_eta.
  - apply IH.
  - now rewrite IH, emit_or_else.
  - now rewrite IH, emit_or_else.
  - now rewrite IH, emit_or_else.
Qed.

(** The finalizer runs whichever way the body ended; if it ends normally
    itself, the run ends the way the body did. *)
Lemma run_try_finally (body fin : Async) (s : State) :
  run env (try_finally body fin) s =
  match completion (run env body s) with
  | Normal => and_then (run env body s) (run env fin)
  | Threw err =>
      or_else (run env body s) (fun _ => run env (fin ;; Throw err))
  end.
Proof.
  revert s. induction body as [ | err | upd k IH | r k IH | cb _ ms k IH | k IH ];
    intros s; simpl.
  - unfold and_then; simpl. apply eq_sym, outcome_eta.
  - unfold or_else; simpl. apply eq_sym, outcome_eta.
  - apply IH.
  - rewrite IH. destruct (completion (run env (k (env r)) s));
      [now rewrite emit_and_then | now rewrite emit_or_else].
  - rewrite IH. destruct (completion (run env k s));
      [now rewrite emit_and_then | now rewrite emit_or_else].
  - rewrite IH. destruct (completion (run env k s));
      [now rewrite emit_and_then | now rewrite emit_or_else].
Qed.

(** A run is its first stretch, then the rest from where that stopped. *)
Lemma run_advance (p : Async) (s : State) :
  run env p s =
  match advance p s with
  | (s', es, Finished c) =>
      {| final := s'; effects := es; completion := c |}
  | (s', es, Waiting r k) =>
      let o := run env (k (env r)) s' in
      {| final := final o; effects := es ++ Requested r :: effects o;
         completion := completion o |}
  end.
Proof.
  revert s. induction p as [ | err | upd k IH | r k IH | cb _ ms k IH | k IH ];
    intros s; simpl; try reflexivity.
  - apply IH.
  - rewrite IH. destruct (advance k s) as [[s' es] [c | r k']]; reflexivity.
  - rewrite IH. destruct (advance k s) as [[s' es] [c | r k']]; reflexivity.
Qed.
End Running.

(** ** The document registry and the selection *)

(** What a refresh leaves, by the reply to [GET /documents].  The registry
    is replaced by the list received; the selection is replaced by all its
    ids when the list is non-empty and the selection of the render that
    issued the refresh is empty, and is left alone otherwise. *)
Lemma fetchDocuments_fulfilled env render cur res :
  env (AxiosGet documents_url) = Fulfilled res ->
  run env (fetchDocuments render) cur =
  {| final :=
       let multiDocs := or_empty (Res.multi_docs res) in
       let cur' := upd_documents (fun _ => multiDocs) cur in
       if (0 <? length multiDocs) && (length (selectedDocIds render) =? 0)
       then upd_selectedDocIds (fun _ => map doc_id multiDocs) cur'
       else cur';
     effects := [Requested (AxiosGet documents_url)];
     completion := Normal |}.
Proof.
  intros H. unfold fetchDocuments, await_axios. simpl. rewrite H. simpl.
  destruct ((0 <? length (or_empty (Res.multi_docs res)))
            && (length (selectedDocIds render) =? 0)); reflexivity.
Qed.

Lemma fetchDocuments_rejected env render cur err :
  env (AxiosGet documents_url) = Rejected err ->
  run env (fetchDocuments render) cur =
  {| final := cur;
     effects := [Requested (AxiosGet documents_url); Logged];
     completion := Normal |}.
Proof.
  intros H. unfold fetchDocuments, await_axios. simpl. now rewrite H.
Qed.

(** A refresh issued by a render whose selection is not empty leaves the
    selection of the moment alone, whatever the reply. *)
Lemma fetchDocuments_selection env render cur :
  selectedDocIds render <> [] ->
  selectedDocIds (final (run env (fetchDocuments render) cur)) =
  selectedDocIds cur.
Proof.
  intros Hsel. destruct (env (AxiosGet documents_url)) as [res | err] eqn:E.
  - erewrite fetchDocuments_fulfilled by eassumption. simpl.
    replace (length (selectedDocIds render) =? 0) with false.
    + now rewrite andb_false_r.
    + symmetry. destruct (selectedDocIds render); [congruence | reflexivity].
  - now erewrite fetchDocuments_rejected by eassumption.
Qed.

(** A refresh ends normally, a rejection being caught and logged, and
    issues its one request. *)
Lemma fetchDocuments_completion env render cur :
  completion (run env (fetchDocuments render) cur) = Normal.
Proof.
  destruct (env (AxiosGet documents_url)) as [res | err] eqn:E.
  - now erewrite fetchDocuments_fulfilled by eassumption.
  - now erewrite fetchDocuments_rejected by eassumption.
Qed.

Lemma fetchDocuments_requests env render cur :
  requests (run env (fetchDocuments render) cur) = [AxiosGet documents_url].
Proof.
  destruct (env (AxiosGet documents_url)) as [res | err] eqn:E.
  - now erewrite fetchDocuments_fulfilled by eassumption.
  - now erewrite fetchDocuments_rejected by eassumption.
Qed.

(** The selection a toggle leaves. *)
Lemma toggle_selection env docId s :
  selectedDocIds (final (toggle env docId s)) =
  if includes (selectedDocIds s) docId
  then filter (fun id => negb (str_eqb id docId)) (selectedDocIds s)
  else selectedDocIds s ++ [docId].
Proof. reflexivity. Qed.

Lemma In_toggled (l : list jsstring) (docId x : jsstring) :
  In x (if includes l docId
        then filter (fun id => negb (str_eqb id docId)) l
        else l ++ [docId]) <->
  (x = docId /\ ~ In docId l) \/ (x <> docId /\ In x l).
Proof.
  destruct (includes l docId) eqn:E.
  - apply includes_In in E. rewrite filter_In, negb_true_iff, str_eqb_neq.
    split.
    + intros [Hin Hne]. now right.
    + intros [[-> Hn] | [Hne Hin]]; [contradiction | now split].
  - assert (Hn : ~ In docId l).
    { intros Hin. apply includes_In in Hin. congruence. }
    rewrite in_app_iff. simpl. split.
    + intros [Hin | [<- | []]].
      * right. split; [|assumption]. intros ->. contradiction.
      * now left.
    + intros [[-> _] | [_ Hin]]; [right; now left | now left].
Qed.

(** C7, as the code has it.  [toggle(id)] flips the membership of [id] in
    the selection whether or not [id] is a document of the registry, which
    it neither reads nor changes; the membership of every other id, and
    every other field of the state, stay as they were. *)
Theorem toggle_flips_membership :
  forall env docId s,
    let s' := final (toggle env docId s) in
    (In docId (selectedDocIds s') <-> ~ In docId (selectedDocIds s)) /\
    (forall x, x <> docId ->
       (In x (selectedDocIds s') <-> In x (selectedDocIds s))) /\
    s' = upd_selectedDocIds (fun _ => selectedDocIds s') s /\
    effects (toggle env docId s) = [] /\
    completion (toggle env docId s) = Normal.
Proof.
  intros env docId s s'. subst s'. rewrite toggle_selection.
  repeat split; try (rewrite In_toggled); tauto.
Qed.

(** C7, as the claim has it, fails: toggling an id the registry does not
    know is not a no-op, it selects the id. *)
Lemma toggle_unknown_id_selects_it :
  ~ In (lit "ghost") (registry_ids initial) /\
  selectedDocIds (final (toggle offline (lit "ghost") initial)) = [lit "ghost"] /\
  final (toggle offline (lit "ghost") initial) <> initial.
Proof.
  split; [intros [] | split; [reflexivity | discriminate]].
Qed.

(** A refresh run from the state of the render that issued it, no other
    handler in between.  If it succeeds with N > 0 documents while the
    selection is empty it leaves all the returned ids selected, in the
    order of the list; successful or not, it leaves a non-empty selection
    as it was. *)
Theorem refresh_selects_all_by_default :
  forall env s,
    (forall res,
       env (AxiosGet documents_url) = Fulfilled res ->
       or_empty (Res.multi_docs res) <> [] ->
       selectedDocIds s = [] ->
       documents (final (refresh env s)) = or_empty (Res.multi_docs res) /\
       selectedDocIds (final (refresh env s)) =
       map doc_id (or_empty (Res.multi_docs res))) /\
    (selectedDocIds s <> [] ->
     selectedDocIds (final (refresh env s)) = selectedDocIds s).
Proof.
  intros env s. split.
  - intros res Hget Hdocs Hsel. unfold refresh.
    erewrite fetchDocuments_fulfilled by eassumption. simpl.
    rewrite Hsel. simpl. rewrite andb_true_r.
    destruct (or_empty (Res.multi_docs res)); [congruence | now split].
  - apply fetchDocuments_selection.
Qed.

Lemma refresh_selects_all_by_default_witness :
  let s := initial in
  let s' := upd_selectedDocIds (fun _ => [lit "a"]) initial in
  let env := backend (listing [doc (lit "a"); doc (lit "b")]) unreachable unreachable in
  selectedDocIds (final (refresh env s)) = [lit "a"; lit "b"] /\
  selectedDocIds (final (refresh env s')) = [lit "a"].
Proof.
  intros s s' env. split.
  - apply (proj1 (refresh_selects_all_by_default env s)
             {| Res.multi_docs := Some [doc (lit "a"); doc (lit "b")];
                Res.filename := None; Res.chunks := undefined_text; Res.answer := [];
                Res.workflow_log := None; Res.session_id := None |});
      [reflexivity | discriminate | reflexivity].
  - apply (proj2 (refresh_selects_all_by_default env s')). discriminate.
Defined.

(** C1, as the claim has it, fails: a refresh whose list omits the selected
    id X leaves X selected, outside the registry. *)
Lemma refresh_keeps_missing_id :
  let s := upd_selectedDocIds (fun _ => [lit "X"])
             (upd_documents (fun _ => [doc (lit "X")]) initial) in
  let env := backend (listing [doc (lit "Y")]) unreachable unreachable in
  selection_in_registry s /\
  registry_ids (final (refresh env s)) = [lit "Y"] /\
  In (lit "X") (selectedDocIds (final (refresh env s))) /\
  ~ selection_in_registry (final (refresh env s)).
Proof.
  intros s env. split; [|split; [|split]].
  - intros x Hx. exact Hx.
  - reflexivity.
  - now left.
  - intros H. destruct (H (lit "X") (or_introl eq_refl)) as [E | []].
    discriminate E.
Qed.

(** ** Upload *)

(** What a successful upload leaves: the status line, the refresh run from
    there for the render that started the upload, the returned id appended
    to the selection of the moment, and the busy flag down. *)
Lemma upload_fulfilled env s file res :
  env (AxiosPost upload_url (FormData file)) = Fulfilled res ->
  upload env (Some file) s =
  let s1 := upd_uploadStatus (fun _ => uploaded_msg (Res.chunks res))
              (upd_uploadStatus (fun _ => uploading_msg)
                 (upd_uploading (fun _ => true) s)) in
  let o := run env (fetchDocuments s) s1 in
  let s2 := match new_id res with
            | [] => final o
            | _ :: _ => upd_selectedDocIds (fun prev => prev ++ new_id res) (final o)
            end in
  {| final := upd_uploading (fun _ => false) s2;
     effects := Requested (AxiosPost upload_url (FormData file)) ::
                effects o ++ [TimerSet 3000 (setUploadStatus [])];
     completion := Normal |}.
Proof.
  intros H. unfold upload, handleFileUpload, await_axios, new_id. simpl.
  rewrite H. unfold fetchDocuments, await_axios. simpl.
  destruct (env (AxiosGet documents_url)) as [resd | err]; simpl.
  - destruct ((0 <? length (or_empty (Res.multi_docs resd)))
              && (length (selectedDocIds s) =? 0));
      destruct (Res.filename res) as [[|c name]|]; reflexivity.
  - destruct (Res.filename res) as [[|c name]|]; reflexivity.
Qed.

Lemma upload_rejected env s file err :
  env (AxiosPost upload_url (FormData file)) = Rejected err ->
  upload env (Some file) s =
  {| final := upd_uploading (fun _ => false)
                (upd_uploadStatus (fun _ => upload_failed_msg)
                   (upd_uploadStatus (fun _ => uploading_msg)
                      (upd_uploading (fun _ => true) s)));
     effects := [Requested (AxiosPost upload_url (FormData file)); Logged];
     completion := Normal |}.
Proof.
  intros H. unfold upload, handleFileUpload, await_axios. simpl.
  now rewrite H.
Qed.

(** What a refresh does to the registry and the selection does not depend
    on the rest of the state it runs from. *)
Lemma fetchDocuments_frame env render cur cur' :
  documents cur = documents cur' ->
  selectedDocIds cur = selectedDocIds cur' ->
  documents (final (run env (fetchDocuments render) cur)) =
  documents (final (run env (fetchDocuments render) cur')) /\
  selectedDocIds (final (run env (fetchDocuments render) cur)) =
  selectedDocIds (final (run env (fetchDocuments render) cur')).
Proof.
  intros Hd Hs. destruct (env (AxiosGet documents_url)) as [res | err] eqn:E.
  - erewrite !fetchDocuments_fulfilled by eassumption. simpl.
    destruct ((0 <? length (or_empty (Res.multi_docs res)))
              && (length (selectedDocIds render) =? 0)); simpl; auto.
  - erewrite !fetchDocuments_rejected by eassumption. simpl. auto.
Qed.

Lemma refresh_keeps_selection env s :
  incl (selectedDocIds s) (selectedDocIds (final (refresh env s))).
Proof.
  destruct (selectedDocIds s) as [|x l] eqn:E.
  - intros x [].
  - unfold refresh. rewrite fetchDocuments_selection by congruence.
    rewrite E. apply incl_refl.
Qed.

Lemma requests_app (es es' : list Effect) s c s' c' :
  requests {| final := s; effects := es ++ es'; completion := c |} =
  requests {| final := s; effects := es; completion := c |} ++
  requests {| final := s'; effects := es'; completion := c' |}.
Proof. unfold requests. simpl. apply flat_map_app. Qed.

(** C9.  A successful upload issues exactly one registry refresh and then
    adds the id of the new document to the selection the refresh left, at its
    end: the selection from before the upload is all still there.  A failed
    upload issues no refresh and leaves registry and selection as they
    were.  Either way the handler ends normally. *)
Theorem upload_selects_new_document :
  forall env s file,
    let post := AxiosPost upload_url (FormData file) in
    let o := upload env (Some file) s in
    (forall res name,
       env post = Fulfilled res ->
       Res.filename res = Some name -> name <> [] ->
       length (filter is_refresh (requests o)) = 1 /\
       documents (final o) = documents (final (refresh env s)) /\
       selectedDocIds (final o) =
         selectedDocIds (final (refresh env s)) ++ [name] /\
       (forall x, In x (selectedDocIds (final o)) <->
                  In x (selectedDocIds (final (refresh env s))) \/ x = name) /\
       incl (selectedDocIds s) (selectedDocIds (final o)) /\
       completion o = Normal) /\
    (forall err,
       env post = Rejected err ->
       filter is_refresh (requests o) = [] /\
       documents (final o) = documents s /\
       selectedDocIds (final o) = selectedDocIds s /\
       completion o = Normal).
Proof.
  intros env s file post o. subst post o. split.
  - intros res name Hpost Hname Hne.
    rewrite (upload_fulfilled _ _ _ _ Hpost).
    assert (Hnew : new_id res = [name]).
    { unfold new_id. rewrite Hname. destruct name; [congruence | reflexivity]. }
    rewrite Hnew. cbv zeta.
    set (s1 := upd_uploadStatus _ (upd_uploadStatus _ (upd_uploading _ s))).
    destruct (fetchDocuments_frame env s s1 s eq_refl eq_refl) as [Hd Hs].
    fold (refresh env s) in Hd, Hs.
    assert (Hsel : selectedDocIds
              (upd_uploading (fun _ => false)
                 (upd_selectedDocIds (fun prev => prev ++ [name])
                    (final (run env (fetchDocuments s) s1)))) =
            selectedDocIds (final (refresh env s)) ++ [name]).
    { transitivity (selectedDocIds (final (run env (fetchDocuments s) s1)) ++ [name]);
        [reflexivity | now rewrite Hs]. }
    cbn [final completion].
    split; [|split; [|split; [|split; [|split]]]].
    + change (Requested ?r :: ?es ++ ?t) with ([Requested r] ++ es ++ t).
      rewrite !(requests_app _ _ _ _ s Normal).
      change (requests {| final := s; effects := effects (run env (fetchDocuments s) s1);
                          completion := Normal |})
        with (requests (run env (fetchDocuments s) s1)).
      rewrite fetchDocuments_requests. reflexivity.
    + exact Hd.
    + exact Hsel.
    + intros x. rewrite Hsel, in_app_iff. simpl. split.
      * intros [H | [H | []]]; [now left | right; congruence].
      * intros [H | H]; [now left | right; left; congruence].
    + rewrite Hsel. apply incl_appl, refresh_keeps_selection.
    + reflexivity.
  - intros err Hpost. rewrite (upload_rejected _ _ _ _ Hpost).
    repeat split.
Qed.

Lemma upload_selects_new_document_witness :
  let s := upd_selectedDocIds (fun _ => [lit "a"])
             (upd_documents (fun _ => [doc (lit "a"); doc (lit "b")]) initial) in
  let file := {| file_name := lit "c.txt"; file_bytes := [99%N] |} in
  let env := backend (listing [doc (lit "a"); doc (lit "b"); doc (lit "c")])
               (stored_as (lit "c") 4) unreachable in
  selectedDocIds (final (upload env (Some file) s)) = [lit "a"; lit "c"] /\
  selectedDocIds (final (upload offline (Some file) s)) = [lit "a"].
Proof.
  intros s file env. split.
  - apply (proj1 (upload_selects_new_document env s file)
             {| Res.multi_docs := None; Res.filename := Some (lit "c");
                Res.chunks := N_to_str 4; Res.answer := [];
                Res.workflow_log := None; Res.session_id := None |}
             (lit "c") eq_refl eq_refl).
    discriminate.
  - apply (proj2 (upload_selects_new_document offline s file)
             {| Err.response_ := None |} eq_refl).
Defined.

(** C1, as the code has it.  [selectAll] and [selectNone] leave the
    selection within the ids of the registry, and toggling an id of the
    registry keeps it there.  A refresh replaces the selection in one case
    only, when the list it receives is not empty and the selection of the
    render that started it is empty: the selection is then all the listed
    ids, within the new registry.  In every other case, the selection of
    that render not empty, the list empty or missing, the request failed,
    it leaves the selection it finds as it is: nothing is pruned, and an
    id the new list omits stays selected.  An upload run with no other
    handler in between keeps the selection within the registry when it
    fails, and when it succeeds if its refresh left it there and listed
    the returned id. *)
Theorem selection_within_registry :
  forall env s,
    selection_in_registry (final (selectAll env s)) /\
    selection_in_registry (final (selectNone env s)) /\
    (forall docId,
       selection_in_registry s -> In docId (registry_ids s) ->
       selection_in_registry (final (toggle env docId s))) /\
    (forall render res,
       env (AxiosGet documents_url) = Fulfilled res ->
       or_empty (Res.multi_docs res) <> [] ->
       selectedDocIds render = [] ->
       selectedDocIds (final (run env (fetchDocuments render) s)) =
         map doc_id (or_empty (Res.multi_docs res)) /\
       selection_in_registry (final (run env (fetchDocuments render) s))) /\
    (forall render,
       selectedDocIds render <> [] \/
       (exists err, env (AxiosGet documents_url) = Rejected err) \/
       (exists res, env (AxiosGet documents_url) = Fulfilled res /\
                    or_empty (Res.multi_docs res) = []) ->
       selectedDocIds (final (run env (fetchDocuments render) s)) =
       selectedDocIds s) /\
    (forall file err,
       env (AxiosPost upload_url (FormData file)) = Rejected err ->
       selection_in_registry s ->
       selection_in_registry (final (upload env (Some file) s))) /\
    (forall file res,
       env (AxiosPost upload_url (FormData file)) = Fulfilled res ->
       selection_in_registry (final (refresh env s)) ->
       incl (new_id res) (registry_ids (final (refresh env s))) ->
       selection_in_registry (final (upload env (Some file) s))).
Proof.
  intros env s. unfold selection_in_registry.
  split; [|split; [|split; [|split; [|split; [|split]]]]].
  - apply incl_refl.
  - intros x [].
  - intros docId Hin Hdoc x Hx. rewrite toggle_selection in Hx.
    apply In_toggled in Hx. change (registry_ids (final (toggle env docId s)))
      with (registry_ids s).
    destruct Hx as [[-> _] | [_ Hx]]; [assumption | now apply Hin].
  - intros render res Hget Hdocs Hsel.
    rewrite (fetchDocuments_fulfilled env render s res Hget). cbn [final].
    rewrite Hsel. cbn [length Nat.eqb]. rewrite andb_true_r.
    destruct (or_empty (Res.multi_docs res)) as [|d docs]; [congruence|].
    split; [reflexivity | apply incl_refl].
  - intros render [Hsel | [[err Hget] | (res & Hget & Hdocs)]].
    + now apply fetchDocuments_selection.
    + now rewrite (fetchDocuments_rejected env render s err Hget).
    + rewrite (fetchDocuments_fulfilled env render s res Hget). cbn [final].
      rewrite Hdocs. reflexivity.
  - intros file err Hpost Hin. rewrite (upload_rejected _ _ _ _ Hpost).
    exact Hin.
  - intros file res Hpost Hin Hnew. rewrite (upload_fulfilled _ _ _ _ Hpost).
    cbv zeta. cbn [final].
    set (s1 := upd_uploadStatus _ (upd_uploadStatus _ (upd_uploading _ s))).
    destruct (fetchDocuments_frame env s s1 s eq_refl eq_refl) as [Hd Hs].
    fold (refresh env s) in Hd, Hs. unfold registry_ids in *.
    destruct (new_id res) as [|n l] eqn:En.
    + change (incl (selectedDocIds (final (run env (fetchDocuments s) s1)))
                (map doc_id (documents (final (run env (fetchDocuments s) s1))))).
      now rewrite Hd, Hs.
    + change (incl (selectedDocIds (final (run env (fetchDocuments s) s1)) ++ n :: l)
                (map doc_id (documents (final (run env (fetchDocuments s) s1))))).
      rewrite Hd, Hs. now apply incl_app.
Qed.

Lemma selection_within_registry_witness :
  let s := upd_selectedDocIds (fun _ => [lit "a"])
             (upd_documents (fun _ => [doc (lit "a"); doc (lit "b")]) initial) in
  let file := {| file_name := lit "c.txt"; file_bytes := [99%N] |} in
  let env := backend (listing [doc (lit "b")]) unreachable unreachable in
  let env' := backend (listing [doc (lit "a"); doc (lit "c")])
                (stored_as (lit "c") 2) unreachable in
  selectedDocIds (final (run env (fetchDocuments initial) s)) = [lit "b"] /\
  selectedDocIds (final (run env (fetchDocuments s) s)) = [lit "a"] /\
  selection_in_registry (final (toggle env (lit "b") s)) /\
  selection_in_registry (final (upload env (Some file) s)) /\
  selection_in_registry (final (upload env' (Some file) s)).
Proof.
  intros s file env env'.
  assert (Hs : selection_in_registry s).
  { intros x [<- | []]. now left. }
  destruct (selection_within_registry env s)
    as (_ & _ & Htoggle & Hall & Hkeep & Hfailed & _).
  destruct (selection_within_registry env' s) as (_ & _ & _ & _ & _ & _ & Hstored).
  split; [|split; [|split; [|split]]].
  - apply (Hall initial
             {| Res.multi_docs := Some [doc (lit "b")]; Res.filename := None;
                Res.chunks := undefined_text; Res.answer := [];
                Res.workflow_log := None; Res.session_id := None |});
      [reflexivity | discriminate | reflexivity].
  - apply Hkeep. left. discriminate.
  - apply Htoggle; [exact Hs | right; now left].
  - apply (Hfailed file {| Err.response_ := None |} eq_refl Hs).
  - apply (Hstored file
             {| Res.multi_docs := None; Res.filename := Some (lit "c");
                Res.chunks := N_to_str 2; Res.answer := [];
                Res.workflow_log := None; Res.session_id := None |} eq_refl).
    + intros x [<- | []]. now left.
    + intros x [<- | []]. right. now left.
Defined.

(** ** Sending a query *)

(** Two states with the same fields are the same state. *)
Lemma state_eq (a b : State) :
  messages a = messages b -> input a = input b ->
  uploading a = uploading b -> uploadStatus a = uploadStatus b ->
  documents a = documents b -> selectedDocIds a = selectedDocIds b ->
  showMultiSelect a = showMultiSelect b -> useAgents a = useAgents b ->
  workflowLog a = workflowLog b -> isProcessing a = isProcessing b ->
  currentAgent a = currentAgent b -> sessionId a = sessionId b ->
  a = b.
Proof.
  destruct a, b; simpl; intros; subst; reflexivity.
Qed.

(** Compare the outcomes of two runs field by field. *)
Ltac updates :=
  unfold emit; cbn [final effects completion];
  repeat (f_equal; try reflexivity);
  try (apply state_eq; simpl; auto).

Lemma send_refused env s :
  refused s = true ->
  send env s = {| final := s; effects := []; completion := Normal |}.
Proof.
  intros H. unfold send. now rewrite sendMessage_refused.
Qed.

Lemma send_fulfilled env s res :
  refused s = false ->
  env (query_request s) = Fulfilled res ->
  send env s =
  {| final :=
       {| messages :=
            (messages s ++ [{| role := user; content := input s |}])
            ++ [{| role := assistant; content := Res.answer res |}];
          input := [];
          uploading := uploading s;
          uploadStatus := uploadStatus s;
          documents := documents s;
          selectedDocIds := selectedDocIds s;
          showMultiSelect := showMultiSelect s;
          useAgents := useAgents s;
          workflowLog :=
            if useAgents s then or_empty (Res.workflow_log res) else [];
          isProcessing := false;
          currentAgent := [];
          sessionId := capture (Res.session_id res) (sessionId s) |};
     effects := map Requested (send_requests s);
     completion := Normal |}.
Proof.
  intros Hguard Hpost. unfold send, sendMessage. fold (refused s).
  rewrite Hguard. unfold query_request in Hpost.
  unfold send_requests, query_request, capture, await_axios, await_timeout.
  destruct (useAgents s) eqn:Hmode; simpl; rewrite Hpost; simpl.
  - destruct (Res.workflow_log res) as [log|]; simpl;
      destruct (truthy_opt (Res.session_id res) && negb (truthy (sessionId s)));
      updates.
  - destruct (truthy_opt (Res.session_id res) && negb (truthy (sessionId s)));
      updates.
Qed.

Lemma send_rejected env s err :
  refused s = false ->
  env (query_request s) = Rejected err ->
  send env s =
  {| final :=
       {| messages :=
            (messages s ++ [{| role := user; content := input s |}])
            ++ [{| role := assistant; content := errorMsg err |}];
          input := [];
          uploading := uploading s;
          uploadStatus := uploadStatus s;
          documents := documents s;
          selectedDocIds := selectedDocIds s;
          showMultiSelect := showMultiSelect s;
          useAgents := useAgents s;
          workflowLog := [];
          isProcessing := false;
          currentAgent := [];
          sessionId := sessionId s |};
     effects := map Requested (send_requests s) ++ [Logged];
     completion := Normal |}.
Proof.
  intros Hguard Hpost. unfold send, sendMessage. fold (refused s).
  rewrite Hguard. unfold query_request in Hpost.
  unfold send_requests, query_request, await_axios, await_timeout.
  destruct (useAgents s) eqn:Hmode; simpl; rewrite Hpost; updates;
    rewrite Hmode; reflexivity.
Qed.

Lemma awaits_requests env p s :
  map fst (awaits env p s) = requests (run env p s).
Proof.
  revert s. induction p as [ | err | upd k IH | r k IH | cb _ ms k IH | k IH ];
    intros s; simpl; try reflexivity.
  - apply IH.
  - unfold requests. simpl. f_equal. apply IH.
  - apply IH.
  - apply IH.
Qed.

Lemma send_awaits env s :
  refused s = false ->
  awaits env (sendMessage s) s = map (fun r => (r, pending s)) (send_requests s).
Proof.
  intros Hguard. unfold sendMessage. fold (refused s). rewrite Hguard.
  unfold send_requests, query_request, pending, await_axios, await_timeout.
  destruct (useAgents s) eqn:Hmode; simpl.
  - destruct (env (AxiosPost (endpoint s) (Json (payload s)))) as [res|err]; simpl.
    + destruct (Res.workflow_log res);
        destruct (truthy_opt (Res.session_id res) && negb (truthy (sessionId s)));
        updates.
    + updates.
  - destruct (env (AxiosPost (endpoint s) (Json (payload s)))) as [res|err]; simpl.
    + destruct (truthy_opt (Res.session_id res) && negb (truthy (sessionId s)));
        updates.
    + updates.
Qed.

Lemma send_optimistic s :
  refused s = false -> optimistic ClickSend s = pending s.
Proof.
  intros Hguard. unfold optimistic, handler, sendMessage. fold (refused s).
  rewrite Hguard. unfold pending, await_axios, await_timeout.
  destruct (useAgents s) eqn:Hmode; updates.
Qed.

Lemma send_requests_run env s :
  requests (send env s) = if refused s then [] else send_requests s.
Proof.
  destruct (refused s) eqn:Hguard.
  - now rewrite send_refused.
  - unfold send. rewrite <- awaits_requests, send_awaits by assumption.
    rewrite map_map. simpl. apply map_id.
Qed.

(** C5.  A send invoked while a query is in flight, or with an input that
    is empty once trimmed, changes nothing: the state, transcript included,
    is the one it found, no request is issued and there is nothing it
    waits for.  So it is for the Send button and for any key pressed in
    the input field. *)
Theorem send_refused_changes_nothing :
  forall env s,
    isProcessing s = true \/ trim (input s) = [] ->
    send env s = {| final := s; effects := []; completion := Normal |} /\
    awaits env (sendMessage s) s = [] /\
    dispatch env ClickSend s = {| final := s; effects := []; completion := Normal |} /\
    (forall key,
       dispatch env (KeyDown key) s =
       {| final := s; effects := []; completion := Normal |}).
Proof.
  intros env s H.
  assert (Hguard : refused s = true) by (apply refused_true; tauto).
  pose proof (send_refused env s Hguard) as Hsend.
  split; [exact Hsend | split; [| split; [exact Hsend |]]].
  - now rewrite sendMessage_refused.
  - intros key. unfold dispatch, handler.
    destruct (str_eqb key (lit "Enter") && negb (isProcessing s));
      [exact Hsend | reflexivity].
Qed.

Lemma send_refused_changes_nothing_witness :
  let busy := upd_isProcessing (fun _ => true)
                (upd_input (fun _ => lit "again?") initial) in
  let blank := upd_input (fun _ => lit "   ") initial in
  messages (final (send offline busy)) = [] /\
  requests (send offline blank) = [].
Proof.
  intros busy blank. split.
  - rewrite (proj1 (send_refused_changes_nothing offline busy (or_introl eq_refl))).
    reflexivity.
  - rewrite (proj1 (send_refused_changes_nothing offline blank (or_intror eq_refl))).
    reflexivity.
Defined.

(** C2.  The payload of a send, by mode.  Agentic: the query text, top_k 5,
    for document ids the selection list when it is not empty and null when
    it is, and the session token when there is one.  Simple: the query
    text, top_k 5, for source the selected id when the selection has
    exactly one element and null otherwise, several selected included.
    A send that is not refused posts this payload, once, to the endpoint of
    its mode; in agentic mode after its 300 ms pause. *)
Theorem send_payload_by_mode :
  forall env s,
    payload s =
    (if useAgents s then
       AgentPayload {|
         AskV2.query := input s;
         AskV2.top_k := 5;
         AskV2.doc_ids :=
           match selectedDocIds s with
           | [] => None
           | _ :: _ => Some (selectedDocIds s)
           end;
         AskV2.session_id :=
           match sessionId s with
           | [] => None
           | _ :: _ => Some (sessionId s)
           end |}
     else
       SimplePayload {|
         Ask.query := input s;
         Ask.top_k := 5;
         Ask.source :=
           match selectedDocIds s with
           | [d] => Some d
           | _ => None
           end |}) /\
    requests (send env s) =
    (if refused s then []
     else if useAgents s
          then [Delay 300; AxiosPost ask_v2_url (Json (payload s))]
          else [AxiosPost ask_url (Json (payload s))]).
Proof.
  intros env s. split.
  - unfold payload. destruct (useAgents s).
    + destruct (selectedDocIds s), (sessionId s); reflexivity.
    + destruct (selectedDocIds s) as [|d [|d' l]]; reflexivity.
  - rewrite send_requests_run. unfold send_requests, query_request, endpoint.
    destruct (refused s), (useAgents s); reflexivity.
Qed.

(** The two payloads of the spec's example: selection {d1, d2}. *)
Example payload_two_selected :
  let s := upd_selectedDocIds (fun _ => [lit "d1"; lit "d2"])
             (upd_input (fun _ => lit "why?") initial) in
  payload s =
    AgentPayload {| AskV2.query := lit "why?"; AskV2.top_k := 5;
                    AskV2.doc_ids := Some [lit "d1"; lit "d2"];
                    AskV2.session_id := None |} /\
  payload (upd_useAgents (fun _ => false) s) =
    SimplePayload {| Ask.query := lit "why?"; Ask.top_k := 5;
                     Ask.source := None |} /\
  payload (upd_useAgents (fun _ => false)
             (upd_selectedDocIds (fun _ => [lit "d1"]) s)) =
    SimplePayload {| Ask.query := lit "why?"; Ask.top_k := 5;
                     Ask.source := Some (lit "d1") |}.
Proof. repeat split. Qed.

Lemma errorMsg_cases err :
  errorMsg err =
  match detail_of err with
  | Some (c :: d) => c :: d
  | _ => error_fallback
  end.
Proof.
  unfold errorMsg. destruct (detail_of err) as [[|c d]|]; reflexivity.
Qed.

Lemma errorMsg_not_empty err : errorMsg err <> [].
Proof.
  rewrite errorMsg_cases. destruct (detail_of err) as [[|c d]|]; discriminate.
Qed.

(** C4.  When the query request of an accepted send fails, the send ends
    normally (the rejection is caught) having appended, after the user
    message, exactly one assistant message: the detail of the error when
    the backend supplied a non-empty one, the fallback "Error contacting
    backend." otherwise, and in no case the empty string.  The session
    token and the selection are the ones it found. *)
Theorem failed_query_is_recovered :
  forall env s err,
    trim (input s) <> [] -> isProcessing s = false ->
    env (query_request s) = Rejected err ->
    let o := send env s in
    completion o = Normal /\
    messages (final o) =
      (messages s ++ [{| role := user; content := input s |}])
      ++ [{| role := assistant; content := errorMsg err |}] /\
    (forall d, detail_of err = Some d -> d <> [] -> errorMsg err = d) /\
    (detail_of err = None -> errorMsg err = error_fallback) /\
    errorMsg err <> [] /\
    sessionId (final o) = sessionId s /\
    selectedDocIds (final o) = selectedDocIds s.
Proof.
  intros env s err Hin Hproc Hpost o. subst o.
  rewrite (send_rejected env s err) by (try apply refused_false; auto).
  cbn [final completion messages sessionId selectedDocIds].
  repeat split.
  - intros d Hd Hne. rewrite errorMsg_cases, Hd. destruct d; [congruence | reflexivity].
  - intros Hd. now rewrite errorMsg_cases, Hd.
  - apply errorMsg_not_empty.
Qed.

Lemma failed_query_is_recovered_witness :
  let s := upd_sessionId (fun _ => lit "t1")
             (upd_selectedDocIds (fun _ => [lit "d1"])
                (upd_input (fun _ => lit "why?") initial)) in
  let down := backend unreachable unreachable unreachable in
  let angry := backend unreachable unreachable (failing (lit "No index")) in
  messages (final (send down s)) =
    [{| role := user; content := lit "why?" |};
     {| role := assistant; content := lit "Error contacting backend." |}] /\
  messages (final (send angry s)) =
    [{| role := user; content := lit "why?" |};
     {| role := assistant; content := lit "No index" |}] /\
  sessionId (final (send angry s)) = lit "t1".
Proof.
  intros s down angry.
  assert (Hin : trim (input s) <> []) by discriminate.
  destruct (failed_query_is_recovered down s {| Err.response_ := None |}
              Hin eq_refl eq_refl) as (_ & Hdown & _).
  destruct (failed_query_is_recovered angry s
              {| Err.response_ :=
                   Some {| Err.data_ := Some {| Err.detail := Some (lit "No index") |} |} |}
              Hin eq_refl eq_refl) as (_ & Hangry & _ & _ & _ & Htoken & _).
  split; [exact Hdown | split; [exact Hangry | exact Htoken]].
Defined.

(** C6, as the claim has it, fails: in simple mode the workflow log a
    response supplies is not taken, the log stays empty. *)
Lemma simple_mode_ignores_workflow_log :
  let s := upd_useAgents (fun _ => false)
             (upd_input (fun _ => lit "why?") initial) in
  let env := backend unreachable unreachable
               (answering (lit "because") (Some [lit "step 1"]) None) in
  refused s = false /\
  env (query_request s) = answering (lit "because") (Some [lit "step 1"]) None /\
  completion (send env s) = Normal /\
  workflowLog (final (send env s)) = [] /\
  workflowLog (final (send env s)) <> [lit "step 1"].
Proof.
  intros s env. repeat split. discriminate.
Qed.

(** C6, as the code has it.  An accepted send empties the workflow log
    before it first waits, whatever the log held, and the log is empty
    at every point where the send waits.  When the reply arrives, in
    agentic mode a workflow log it supplies becomes the log, in place of
    it and not after it; in simple mode, or when the reply supplies none,
    or when the request fails, the log is left empty. *)
Theorem workflow_log_replaced :
  forall env s,
    trim (input s) <> [] -> isProcessing s = false ->
    workflowLog (optimistic ClickSend s) = [] /\
    (forall r st, In (r, st) (awaits env (sendMessage s) s) -> workflowLog st = []) /\
    (forall res,
       env (query_request s) = Fulfilled res ->
       workflowLog (final (send env s)) =
       match useAgents s, Res.workflow_log res with
       | true, Some log => log
       | _, _ => []
       end) /\
    (forall err,
       env (query_request s) = Rejected err ->
       workflowLog (final (send env s)) = []).
Proof.
  intros env s Hin Hproc.
  assert (Hguard : refused s = false) by (apply refused_false; auto).
  split; [|split; [|split]].
  - now rewrite send_optimistic.
  - intros r st H. rewrite send_awaits in H by assumption.
    apply in_map_iff in H. destruct H as (r' & E & _).
    injection E as _ <-. reflexivity.
  - intros res Hpost. rewrite (send_fulfilled env s res) by assumption.
    cbn [final workflowLog].
    destruct (useAgents s), (Res.workflow_log res); reflexivity.
  - intros err Hpost. now rewrite (send_rejected env s err).
Qed.

Lemma workflow_log_replaced_witness :
  let s := upd_workflowLog (fun _ => [lit "old step"])
             (upd_input (fun _ => lit "why?") initial) in
  let env := backend unreachable unreachable
               (answering (lit "because") (Some [lit "step 1"; lit "step 2"]) None) in
  workflowLog (optimistic ClickSend s) = [] /\
  workflowLog (final (send env s)) = [lit "step 1"; lit "step 2"].
Proof.
  intros s env.
  assert (Hin : trim (input s) <> []) by discriminate.
  destruct (workflow_log_replaced env s Hin eq_refl) as (Hstart & _ & Hlog & _).
  split; [exact Hstart |].
  exact (Hlog {| Res.multi_docs := None; Res.filename := None; Res.chunks := undefined_text;
                 Res.answer := lit "because";
                 Res.workflow_log := Some [lit "step 1"; lit "step 2"];
                 Res.session_id := None |} eq_refl).
Defined.

(** C10.  An accepted send has emptied the input field, and appended the
    typed text as a user message, before it first waits; the input is empty
    at every point where it waits, the query request among them.  When the
    request fails the input is not restored: in the state the send leaves,
    the typed text is the content of the user message and is nowhere
    else. *)
Theorem input_cleared_and_not_restored :
  forall env s,
    trim (input s) <> [] -> isProcessing s = false ->
    input (optimistic ClickSend s) = [] /\
    messages (optimistic ClickSend s) =
      messages s ++ [{| role := user; content := input s |}] /\
    In (query_request s) (map fst (awaits env (sendMessage s) s)) /\
    (forall r st, In (r, st) (awaits env (sendMessage s) s) -> input st = []) /\
    (forall err,
       env (query_request s) = Rejected err ->
       final (send env s) =
       {| messages :=
            (messages s ++ [{| role := user; content := input s |}])
            ++ [{| role := assistant; content := errorMsg err |}];
          input := [];
          uploading := uploading s;
          uploadStatus := uploadStatus s;
          documents := documents s;
          selectedDocIds := selectedDocIds s;
          showMultiSelect := showMultiSelect s;
          useAgents := useAgents s;
          workflowLog := [];
          isProcessing := false;
          currentAgent := [];
          sessionId := sessionId s |}).
Proof.
  intros env s Hin Hproc.
  assert (Hguard : refused s = false) by (apply refused_false; auto).
  rewrite send_optimistic, send_awaits by assumption.
  split; [reflexivity | split; [reflexivity | split; [| split]]].
  - rewrite map_map. simpl. rewrite map_id. unfold send_requests.
    destruct (useAgents s); simpl; auto.
  - intros r st H. apply in_map_iff in H. destruct H as (r' & E & _).
    injection E as _ <-. reflexivity.
  - intros err Hpost. now rewrite (send_rejected env s err).
Qed.

Lemma input_cleared_and_not_restored_witness :
  let s := upd_input (fun _ => lit " why? ") initial in
  input (optimistic ClickSend s) = [] /\
  input (final (send offline s)) = [] /\
  messages (final (send offline s)) =
    [{| role := user; content := lit " why? " |};
     {| role := assistant; content := lit "Error contacting backend." |}].
Proof.
  intros s.
  assert (Hin : trim (input s) <> []) by discriminate.
  destruct (input_cleared_and_not_restored offline s Hin eq_refl)
    as (Hstart & _ & _ & _ & Hfail).
  split; [exact Hstart |].
  rewrite (Hfail {| Err.response_ := None |} eq_refl). split; reflexivity.
Defined.

(** ** The session token *)

Lemma fetchDocuments_sessionId env render cur :
  sessionId (final (run env (fetchDocuments render) cur)) = sessionId cur.
Proof.
  destruct (env (AxiosGet documents_url)) as [res | err] eqn:E.
  - erewrite fetchDocuments_fulfilled by eassumption. cbn [final].
    destruct ((0 <? length (or_empty (Res.multi_docs res)))
              && (length (selectedDocIds render) =? 0)); reflexivity.
  - now erewrite fetchDocuments_rejected by eassumption.
Qed.

Lemma upload_sessionId env file s :
  sessionId (final (upload env file s)) = sessionId s.
Proof.
  destruct file as [file|]; [|reflexivity].
  destruct (env (AxiosPost upload_url (FormData file))) as [res | err] eqn:E.
  - rewrite (upload_fulfilled _ _ _ _ E). cbv zeta. cbn [final].
    destruct (new_id res);
      [ change (sessionId (upd_uploading ?f ?x)) with (sessionId x)
      | change (sessionId (upd_uploading ?f (upd_selectedDocIds ?g ?x)))
          with (sessionId x) ];
      now rewrite fetchDocuments_sessionId.
  - now rewrite (upload_rejected _ _ _ _ E).
Qed.

Lemma capture_set (sid : option jsstring) (token : jsstring) :
  token <> [] -> capture sid token = token.
Proof.
  intros H. unfold capture. apply truthy_true in H. rewrite H.
  now rewrite andb_false_r.
Qed.

Lemma capture_unset (id : jsstring) :
  id <> [] -> capture (Some id) [] = id.
Proof.
  intros H. unfold capture. simpl. apply truthy_true in H. now rewrite H.
Qed.

Lemma send_sessionId env s :
  sessionId s <> [] -> sessionId (final (send env s)) = sessionId s.
Proof.
  intros Htoken. destruct (refused s) eqn:Hguard.
  - now rewrite send_refused.
  - destruct (env (query_request s)) as [res | err] eqn:E.
    + rewrite (send_fulfilled env s res) by assumption.
      now apply capture_set.
    + now rewrite (send_rejected env s err).
Qed.

(** Every event but "New Chat" leaves a token that is set as it is. *)
Lemma dispatch_sessionId env ev s :
  sessionId s <> [] -> ev <> ClickNewChat ->
  sessionId (final (dispatch env ev s)) = sessionId s.
Proof.
  intros Htoken Hev. unfold dispatch.
  destruct ev as [ | | file | value | | | | | docId | checked | value | key | ];
    try reflexivity; cbn [handler].
  - apply fetchDocuments_sessionId.
  - congruence.
  - apply upload_sessionId.
  - destruct (str_eqb value (lit "all")); [reflexivity|].
    destruct (negb (str_eqb value (lit "custom"))); reflexivity.
  - destruct (str_eqb key (lit "Enter") && negb (isProcessing s));
      [now apply send_sessionId | reflexivity].
  - now apply send_sessionId.
Qed.

(** C3.  Once the session token is set, no event but "New Chat" changes
    it, a response carrying another token included; "New Chat" returns it
    to the empty string.  A response is captured by [capture]: its token
    is taken only by a send issued while none was set.  So a token A
    captured by a first send is still the token after a later send,
    whatever that one's reply carries. *)
Theorem session_token_set_once :
  forall env ev s,
    (sessionId s <> [] -> ev <> ClickNewChat ->
     sessionId (final (dispatch env ev s)) = sessionId s) /\
    sessionId (final (dispatch env ClickNewChat s)) = [] /\
    (forall res,
       refused s = false -> env (query_request s) = Fulfilled res ->
       sessionId (final (send env s)) =
       capture (Res.session_id res) (sessionId s)) /\
    (forall res A env' value,
       refused s = false -> sessionId s = [] ->
       env (query_request s) = Fulfilled res ->
       Res.session_id res = Some A -> A <> [] ->
       let s1 := final (send env s) in
       let s2 := final (dispatch env' (ChangeInput value) s1) in
       sessionId s1 = A /\ sessionId (final (send env' s2)) = A).
Proof.
  intros env ev s. split; [|split; [|split]].
  - apply dispatch_sessionId.
  - reflexivity.
  - intros res Hguard Hpost. now rewrite (send_fulfilled env s res).
  - intros res A env' value Hguard Hempty Hpost Hsid HA s1 s2.
    assert (H1 : sessionId s1 = A).
    { subst s1. rewrite (send_fulfilled env s res) by assumption.
      cbn [final sessionId]. rewrite Hsid, Hempty. now apply capture_unset. }
    split; [exact H1 |].
    assert (H2 : sessionId s2 = A) by (subst s2; exact H1).
    rewrite send_sessionId; [exact H2 | now rewrite H2].
Qed.

Lemma session_token_set_once_witness :
  let s := upd_input (fun _ => lit "first") initial in
  let envA := backend unreachable unreachable
                (answering (lit "one") None (Some (lit "A"))) in
  let envB := backend unreachable unreachable
                (answering (lit "two") None (Some (lit "B"))) in
  let s1 := final (send envA s) in
  let s2 := final (dispatch envB (ChangeInput (lit "second")) s1) in
  sessionId s1 = lit "A" /\
  sessionId (final (send envB s2)) = lit "A" /\
  sessionId (final (dispatch envB (ChangeCheckbox (lit "d")) s1)) = lit "A".
Proof.
  intros s envA envB s1 s2.
  destruct (session_token_set_once envA Mount s) as (_ & _ & _ & Hseq).
  destruct (Hseq {| Res.multi_docs := None; Res.filename := None; Res.chunks := undefined_text;
                    Res.answer := lit "one"; Res.workflow_log := None;
                    Res.session_id := Some (lit "A") |}
                 (lit "A") envB (lit "second") eq_refl eq_refl eq_refl eq_refl)
    as [H1 H2]; [discriminate |].
  split; [exact H1 | split; [exact H2 |]].
  destruct (session_token_set_once envB (ChangeCheckbox (lit "d")) s1) as (Hkeep & _).
  rewrite Hkeep; [exact H1 | | discriminate].
  fold s1 in H1. rewrite H1. discriminate.
Defined.

(** * Further properties of the handlers *)

(** ** What a refresh and an upload leave alone *)

Lemma fetchDocuments_other_fields env render cur :
  let s' := final (run env (fetchDocuments render) cur) in
  messages s' = messages cur /\ input s' = input cur /\
  uploading s' = uploading cur /\ uploadStatus s' = uploadStatus cur /\
  showMultiSelect s' = showMultiSelect cur /\ useAgents s' = useAgents cur /\
  workflowLog s' = workflowLog cur /\ isProcessing s' = isProcessing cur /\
  currentAgent s' = currentAgent cur /\ sessionId s' = sessionId cur.
Proof.
  destruct (env (AxiosGet documents_url)) as [res | err] eqn:E.
  - erewrite fetchDocuments_fulfilled by eassumption. cbn [final].
    destruct ((0 <? length (or_empty (Res.multi_docs res)))
              && (length (selectedDocIds render) =? 0));
      repeat split.
  - erewrite fetchDocuments_rejected by eassumption. repeat split.
Qed.

Lemma upload_other_fields env file s :
  let s' := final (upload env file s) in
  messages s' = messages s /\ input s' = input s /\
  showMultiSelect s' = showMultiSelect s /\ useAgents s' = useAgents s /\
  workflowLog s' = workflowLog s /\ isProcessing s' = isProcessing s /\
  currentAgent s' = currentAgent s /\ sessionId s' = sessionId s.
Proof.
  destruct file as [file|]; [|repeat split].
  destruct (env (AxiosPost upload_url (FormData file))) as [res | err] eqn:E.
  - rewrite (upload_fulfilled _ _ _ _ E). cbv zeta. cbn [final].
    set (s1 := upd_uploadStatus _ (upd_uploadStatus _ (upd_uploading _ s))).
    destruct (fetchDocuments_other_fields env s s1)
      as (Hm & Hi & _ & _ & Hsm & Hu & Hw & Hp & Hc & Ht).
    destruct (new_id res); cbn; repeat split; assumption.
  - rewrite (upload_rejected _ _ _ _ E). repeat split.
Qed.

(** X1.  No handler lets a rejection escape: whatever the event, the state
    and the replies of the backend, the handler ends normally. *)
Theorem no_handler_rejects :
  forall env ev s, completion (dispatch env ev s) = Normal.
Proof.
  intros env ev s. unfold dispatch.
  assert (Hsend : completion (run env (sendMessage s) s) = Normal).
  { fold (send env s). destruct (refused s) eqn:Hguard.
    - now rewrite send_refused.
    - destruct (env (query_request s)) as [res | err] eqn:E.
      + now rewrite (send_fulfilled env s res).
      + now rewrite (send_rejected env s err). }
  destruct ev as [ | | file | value | | | | | docId | checked | value | key | ];
    cbn [handler]; try reflexivity.
  - apply fetchDocuments_completion.
  - fold (upload env file s). destruct file as [file|]; [|reflexivity].
    destruct (env (AxiosPost upload_url (FormData file))) as [res | err] eqn:E.
    + now rewrite (upload_fulfilled _ _ _ _ E).
    + now rewrite (upload_rejected _ _ _ _ E).
  - destruct (str_eqb value (lit "all")); [reflexivity|].
    destruct (negb (str_eqb value (lit "custom"))); reflexivity.
  - destruct (str_eqb key (lit "Enter") && negb (isProcessing s));
      [exact Hsend | reflexivity].
  - exact Hsend.
Qed.

(** X2.  The transcript is append-only: no event but "New Chat" removes
    or changes a message.  An accepted send, from the Send button or the
    Enter key, adds exactly two: the user message with the text typed,
    then one assistant message, the answer or the error text.  Every
    other event, a refused send included, leaves the transcript as it
    is. *)
Theorem transcript_is_append_only :
  forall env ev s,
    ev <> ClickNewChat ->
    let sends := (ev = ClickSend \/ ev = KeyDown (lit "Enter")) /\ refused s = false in
    (sends ->
     messages (final (dispatch env ev s)) =
     messages s ++ [{| role := user; content := input s |};
                    {| role := assistant;
                       content := match env (query_request s) with
                                  | Fulfilled res => Res.answer res
                                  | Rejected err => errorMsg err
                                  end |}]) /\
    (~ sends -> messages (final (dispatch env ev s)) = messages s).
Proof.
  intros env ev s Hev sends. subst sends. unfold dispatch.
  assert (Hacc : refused s = false ->
            messages (final (run env (sendMessage s) s)) =
            messages s ++ [{| role := user; content := input s |};
                           {| role := assistant;
                              content := match env (query_request s) with
                                         | Fulfilled res => Res.answer res
                                         | Rejected err => errorMsg err
                                         end |}]).
  { intros Hguard. fold (send env s).
    destruct (env (query_request s)) as [res | err] eqn:E.
    - rewrite (send_fulfilled env s res) by assumption.
      cbn [final messages]. now rewrite <- app_assoc.
    - rewrite (send_rejected env s err) by assumption.
      cbn [final messages]. now rewrite <- app_assoc. }
  assert (Href : refused s = true ->
            messages (final (run env (sendMessage s) s)) = messages s).
  { intros Hguard. fold (send env s). now rewrite send_refused. }
  destruct ev as [ | | file | value | | | | | docId | checked | value | key | ];
    cbn [handler];
    try (split; [intros [[H | H] _]; discriminate H | intros _; reflexivity]).
  - split; [intros [[H | H] _]; discriminate H | intros _].
    pose proof (fetchDocuments_other_fields env s s) as (Hm & _). exact Hm.
  - congruence.
  - split; [intros [[H | H] _]; discriminate H | intros _].
    pose proof (upload_other_fields env file s) as (Hm & _). exact Hm.
  - split; [intros [[H | H] _]; discriminate H | intros _].
    destruct (str_eqb value (lit "all")); [reflexivity|].
    destruct (negb (str_eqb value (lit "custom"))); reflexivity.
  - destruct (str_eqb key (lit "Enter")) eqn:Ekey; cbn [andb].
    + apply str_eqb_eq in Ekey. subst key.
      destruct (refused s) eqn:Hguard.
      * split; [intros [_ H]; discriminate H | intros _].
        destruct (negb (isProcessing s)); [now apply Href | reflexivity].
      * apply refused_false in Hguard as Hs. destruct Hs as [_ Hproc].
        rewrite Hproc. cbn [negb].
        split; [intros _; now apply Hacc | intros H; exfalso; apply H; auto].
    + apply str_eqb_neq in Ekey.
      split; [intros [[H | H] _]; [discriminate H | congruence] | intros _; reflexivity].
  - destruct (refused s) eqn:Hguard.
    + split; [intros [_ H]; discriminate H | intros _; now apply Href].
    + split; [intros _; now apply Hacc | intros H; exfalso; apply H; auto].
Qed.

Lemma transcript_is_append_only_witness :
  let s := upd_messages (fun _ => [{| role := user; content := lit "hi" |}])
             (upd_input (fun _ => lit "why?") initial) in
  messages (final (dispatch offline (ChangeCheckbox (lit "d")) s)) = messages s /\
  messages (final (dispatch offline ClickSend s)) =
    [{| role := user; content := lit "hi" |};
     {| role := user; content := lit "why?" |};
     {| role := assistant; content := lit "Error contacting backend." |}].
Proof.
  intros s.
  destruct (transcript_is_append_only offline (ChangeCheckbox (lit "d")) s)
    as [_ Hkeep]; [discriminate|].
  destruct (transcript_is_append_only offline ClickSend s) as [Hsend _];
    [discriminate|].
  split.
  - apply Hkeep. intros [[H | H] _]; discriminate H.
  - apply Hsend. split; [now left | reflexivity].
Defined.

(** X3.  "New Chat" empties the transcript, the session token, the
    workflow log and the input, and nothing else: registry, selection,
    mode and both busy flags stay, so a query or an upload in flight is
    still marked as such.  It issues no request, and once done the view
    no longer offers it. *)
Theorem new_chat_clears_conversation :
  forall env s,
    let o := dispatch env ClickNewChat s in
    final o =
    {| messages := [];
       input := [];
       uploading := uploading s;
       uploadStatus := uploadStatus s;
       documents := documents s;
       selectedDocIds := selectedDocIds s;
       showMultiSelect := showMultiSelect s;
       useAgents := useAgents s;
       workflowLog := [];
       isProcessing := isProcessing s;
       currentAgent := currentAgent s;
       sessionId := [] |} /\
    effects o = [] /\
    offered (final o) ClickNewChat = false /\
    final (dispatch env ClickNewChat (final o)) = final o.
Proof.
  intros env s. repeat split.
Qed.

(** X4.  An accepted send whose query is answered leaves the transcript
    longer by the user message and the assistant message holding the
    answer, in that order, the input empty, the processing flag down and
    the step label empty; registry, selection, mode and upload state are
    as it found them. *)
Theorem answered_query_lands_in_transcript :
  forall env s res,
    trim (input s) <> [] -> isProcessing s = false ->
    env (query_request s) = Fulfilled res ->
    let s' := final (send env s) in
    messages s' =
      messages s ++ [{| role := user; content := input s |};
                     {| role := assistant; content := Res.answer res |}] /\
    input s' = [] /\ isProcessing s' = false /\ currentAgent s' = [] /\
    documents s' = documents s /\ selectedDocIds s' = selectedDocIds s /\
    useAgents s' = useAgents s /\ showMultiSelect s' = showMultiSelect s /\
    uploading s' = uploading s /\ uploadStatus s' = uploadStatus s /\
    completion (send env s) = Normal.
Proof.
  intros env s res Hin Hproc Hpost s'. subst s'.
  rewrite (send_fulfilled env s res) by (try apply refused_false; auto).
  cbn [final completion messages]. rewrite <- app_assoc. repeat split.
Qed.

Lemma answered_query_lands_in_transcript_witness :
  let s := upd_input (fun _ => lit "why?") initial in
  let env := backend unreachable unreachable
               (answering (lit "because") None None) in
  messages (final (send env s)) =
    [{| role := user; content := lit "why?" |};
     {| role := assistant; content := lit "because" |}].
Proof.
  intros s env.
  assert (Hin : trim (input s) <> []) by discriminate.
  exact (proj1 (answered_query_lands_in_transcript env s
                  {| Res.multi_docs := None; Res.filename := None;
                     Res.chunks := undefined_text; Res.answer := lit "because";
                     Res.workflow_log := None; Res.session_id := None |}
                  Hin eq_refl eq_refl)).
Defined.

(** X5.  The processing flag brackets the query: an accepted send has it
    up, with a step label showing, at every point where it waits, and
    leaves it down, with the label empty, whether the query was answered
    or failed. *)
Theorem processing_flag_brackets_query :
  forall env s,
    trim (input s) <> [] -> isProcessing s = false ->
    awaits env (sendMessage s) s <> [] /\
    (forall r st, In (r, st) (awaits env (sendMessage s) s) ->
       isProcessing st = true /\ currentAgent st <> []) /\
    isProcessing (final (send env s)) = false /\
    currentAgent (final (send env s)) = [].
Proof.
  intros env s Hin Hproc.
  assert (Hguard : refused s = false) by (apply refused_false; auto).
  rewrite send_awaits by assumption. split; [|split].
  - unfold send_requests. destruct (useAgents s); discriminate.
  - intros r st H. apply in_map_iff in H. destruct H as (r' & E & _).
    injection E as _ <-. split; [reflexivity|].
    cbn [pending currentAgent]. destruct (useAgents s); discriminate.
  - destruct (env (query_request s)) as [res | err] eqn:E.
    + rewrite (send_fulfilled env s res) by assumption. split; reflexivity.
    + rewrite (send_rejected env s err) by assumption. split; reflexivity.
Qed.

Lemma processing_flag_brackets_query_witness :
  let s := upd_input (fun _ => lit "why?") initial in
  isProcessing (final (send offline s)) = false /\
  isProcessing (optimistic ClickSend s) = true.
Proof.
  intros s.
  assert (Hin : trim (input s) <> []) by discriminate.
  destruct (processing_flag_brackets_query offline s Hin eq_refl)
    as (_ & Hup & Hdown & _).
  split; [exact Hdown|].
  apply (Hup (Delay 300) (optimistic ClickSend s)). left. reflexivity.
Defined.

(** X6.  A refresh whose request fails is silent: the state, registry and
    selection included, is exactly the one it found, the failure is logged
    once and the handler ends normally.  So it is at mount. *)
Theorem failed_refresh_changes_nothing :
  forall env s err,
    env (AxiosGet documents_url) = Rejected err ->
    refresh env s =
      {| final := s;
         effects := [Requested (AxiosGet documents_url); Logged];
         completion := Normal |} /\
    final (dispatch env Mount s) = s.
Proof.
  intros env s err H. unfold dispatch, refresh. cbn [handler].
  now rewrite (fetchDocuments_rejected env s s err H).
Qed.

Lemma failed_refresh_changes_nothing_witness :
  let s := upd_selectedDocIds (fun _ => [lit "a"])
             (upd_documents (fun _ => [doc (lit "a")]) initial) in
  final (refresh offline s) = s.
Proof.
  intros s.
  now rewrite (proj1 (failed_refresh_changes_nothing offline s
                        {| Err.response_ := None |} eq_refl)).
Defined.

(** X7.  A refresh answered without a document list, or with an empty one,
    empties the registry and selects nothing: the selection stays as it
    was, so whatever was selected is selected still, with no document
    behind it. *)
Theorem refresh_without_documents :
  forall env s res,
    env (AxiosGet documents_url) = Fulfilled res ->
    Res.multi_docs res = None \/ Res.multi_docs res = Some [] ->
    documents (final (refresh env s)) = [] /\
    selectedDocIds (final (refresh env s)) = selectedDocIds s /\
    (selectedDocIds s <> [] -> ~ selection_in_registry (final (refresh env s))).
Proof.
  intros env s res Hget Hdocs. unfold refresh.
  rewrite (fetchDocuments_fulfilled env s s res Hget).
  assert (E : or_empty (Res.multi_docs res) = [])
    by (destruct Hdocs as [-> | ->]; reflexivity).
  rewrite E. cbn. split; [reflexivity | split; [reflexivity|]].
  intros Hsel Hin. destruct (selectedDocIds s) as [|x l] eqn:Es; [congruence|].
  apply (Hin x). cbn. rewrite Es. now left.
Qed.

Lemma refresh_without_documents_witness :
  let s := upd_selectedDocIds (fun _ => [lit "a"])
             (upd_documents (fun _ => [doc (lit "a")]) initial) in
  let env := backend (Fulfilled no_data) unreachable unreachable in
  documents (final (refresh env s)) = [] /\
  selectedDocIds (final (refresh env s)) = [lit "a"].
Proof.
  intros s env.
  destruct (refresh_without_documents env s no_data eq_refl (or_introl eq_refl))
    as (Hd & Hs & _).
  split; [exact Hd | exact Hs].
Defined.

(** ** More on upload *)

(** Where an upload waits: for its POST, with the busy flag up and
    "Uploading..." for status, and, once that is answered, for its
    refresh, with the count of chunks for status. *)
Lemma upload_awaits env s file :
  awaits env (handleFileUpload s (Some file)) s =
  let s0 := upd_uploadStatus (fun _ => uploading_msg)
              (upd_uploading (fun _ => true) s) in
  (AxiosPost upload_url (FormData file), s0) ::
  match env (AxiosPost upload_url (FormData file)) with
  | Fulfilled res =>
      [(AxiosGet documents_url,
        upd_uploadStatus (fun _ => uploaded_msg (Res.chunks res)) s0)]
  | Rejected _ => []
  end.
Proof.
  unfold handleFileUpload, fetchDocuments, await_axios. simpl.
  destruct (env (AxiosPost upload_url (FormData file))) as [res | err]; simpl;
    [|reflexivity].
  destruct (env (AxiosGet documents_url)) as [resd | errd]; simpl.
  - destruct ((0 <? length (or_empty (Res.multi_docs resd)))
              && (length (selectedDocIds s) =? 0));
      destruct (Res.filename res) as [[|c name]|]; reflexivity.
  - destruct (Res.filename res) as [[|c name]|]; reflexivity.
Qed.

(** X8.  An upload answered without a filename, or with an empty one,
    still refreshes the registry, once, but adds nothing to the
    selection: it is the one the refresh left. *)
Theorem upload_without_filename_selects_nothing :
  forall env s file res,
    env (AxiosPost upload_url (FormData file)) = Fulfilled res ->
    Res.filename res = None \/ Res.filename res = Some [] ->
    let o := upload env (Some file) s in
    length (filter is_refresh (requests o)) = 1 /\
    documents (final o) = documents (final (refresh env s)) /\
    selectedDocIds (final o) = selectedDocIds (final (refresh env s)).
Proof.
  intros env s file res Hpost Hname o. subst o.
  rewrite (upload_fulfilled _ _ _ _ Hpost).
  assert (Hnew : new_id res = [])
    by (unfold new_id; destruct Hname as [-> | ->]; reflexivity).
  rewrite Hnew. cbv zeta. cbn [final].
  set (s1 := upd_uploadStatus _ (upd_uploadStatus _ (upd_uploading _ s))).
  destruct (fetchDocuments_frame env s s1 s eq_refl eq_refl) as [Hd Hs].
  fold (refresh env s) in Hd, Hs.
  split; [|split; [exact Hd | exact Hs]].
  change (Requested ?r :: ?es ++ ?t) with ([Requested r] ++ es ++ t).
  rewrite !(requests_app _ _ _ _ s Normal).
  change (requests {| final := s; effects := effects (run env (fetchDocuments s) s1);
                      completion := Normal |})
    with (requests (run env (fetchDocuments s) s1)).
  rewrite fetchDocuments_requests. reflexivity.
Qed.

Lemma upload_without_filename_selects_nothing_witness :
  let s := upd_selectedDocIds (fun _ => [lit "a"])
             (upd_documents (fun _ => [doc (lit "a")]) initial) in
  let file := {| file_name := lit "c.txt"; file_bytes := [99%N] |} in
  let env := backend (listing [doc (lit "a"); doc (lit "c")])
               (Fulfilled no_data) unreachable in
  selectedDocIds (final (upload env (Some file) s)) = [lit "a"].
Proof.
  intros s file env.
  destruct (upload_without_filename_selects_nothing env s file no_data
              eq_refl (or_introl eq_refl)) as (_ & _ & Hs).
  exact Hs.
Defined.

(** The timers among the effects of a run. *)
Lemma upload_timers env s file :
  flat_map (fun e => match e with TimerSet ms cb => [(ms, cb)] | _ => [] end)
    (effects (upload env (Some file) s)) =
  match env (AxiosPost upload_url (FormData file)) with
  | Fulfilled _ => [(3000%N, setUploadStatus [])]
  | Rejected _ => []
  end.
Proof.
  destruct (env (AxiosPost upload_url (FormData file))) as [res | err] eqn:E.
  - rewrite (upload_fulfilled _ _ _ _ E). cbv zeta. cbn [effects].
    cbn [flat_map]. rewrite flat_map_app.
    destruct (env (AxiosGet documents_url)) as [resd | errd] eqn:Eg.
    + erewrite fetchDocuments_fulfilled by eassumption. reflexivity.
    + erewrite fetchDocuments_rejected by eassumption. reflexivity.
  - now rewrite (upload_rejected _ _ _ _ E).
Qed.

(** X9.  The busy flag and the status line of an upload that runs with no
    other handler or timer in between.  At each of its waits it has the
    flag up and a status set, "Uploading..." first, which the view paints
    red as it does not start with the check mark.  When the POST is
    answered it ends with the flag down and the green status "Uploaded: c
    chunks indexed", [c] being the text the template shows for the chunks
    received, and sets one timer, of 3 seconds; the timer is never
    cancelled and, when it fires, empties the status whatever it then is.
    When the POST fails it ends with the flag down and the red "Upload
    failed", and sets no timer: the status stays. *)
Theorem upload_flag_and_status :
  forall env s file,
    let o := upload env (Some file) s in
    let timers := flat_map (fun e => match e with
                                     | TimerSet ms cb => [(ms, cb)]
                                     | _ => []
                                     end) (effects o) in
    (forall r st, In (r, st) (awaits env (handleFileUpload s (Some file)) s) ->
       uploading st = true /\ statusBanner st <> NoBanner) /\
    statusBanner (optimistic (ChangeFile (Some file)) s) = RedBanner /\
    uploading (final o) = false /\
    (forall res,
       env (AxiosPost upload_url (FormData file)) = Fulfilled res ->
       uploadStatus (final o) = uploaded_msg (Res.chunks res) /\
       statusBanner (final o) = GreenBanner /\
       exists cb,
         timers = [(3000%N, cb)] /\
         forall st, final (run env cb st) = upd_uploadStatus (fun _ => []) st) /\
    (forall err,
       env (AxiosPost upload_url (FormData file)) = Rejected err ->
       uploadStatus (final o) = upload_failed_msg /\
       statusBanner (final o) = RedBanner /\
       timers = []).
Proof.
  intros env s file o timers. subst o timers.
  rewrite upload_timers, upload_awaits. cbv zeta.
  split; [|split; [|split; [|split]]].
  - intros r st H.
    destruct H as [E | H]; [injection E as _ <-; split; [reflexivity | discriminate]|].
    destruct (env (AxiosPost upload_url (FormData file))) as [res | err];
      [|destruct H].
    destruct H as [E | []]. injection E as _ <-.
    split; [reflexivity | discriminate].
  - reflexivity.
  - pose proof (upload_other_fields env (Some file) s) as _.
    destruct (env (AxiosPost upload_url (FormData file))) as [res | err] eqn:E.
    + rewrite (upload_fulfilled _ _ _ _ E). reflexivity.
    + rewrite (upload_rejected _ _ _ _ E). reflexivity.
  - intros res Hpost. rewrite Hpost, (upload_fulfilled _ _ _ _ Hpost).
    cbv zeta. cbn [final].
    set (s1 := upd_uploadStatus _ (upd_uploadStatus _ (upd_uploading _ s))).
    destruct (fetchDocuments_other_fields env s s1) as (_ & _ & _ & Hst & _).
    assert (Hstatus : uploadStatus
              (upd_uploading (fun _ => false)
                 match new_id res with
                 | [] => final (run env (fetchDocuments s) s1)
                 | _ :: _ =>
                     upd_selectedDocIds (fun prev => prev ++ new_id res)
                       (final (run env (fetchDocuments s) s1))
                 end) = uploaded_msg (Res.chunks res)).
    { destruct (new_id res); cbn; exact Hst. }
    split; [exact Hstatus | split].
    + unfold statusBanner. rewrite Hstatus. reflexivity.
    + exists (setUploadStatus []). split; reflexivity.
  - intros err Hpost. rewrite Hpost, (upload_rejected _ _ _ _ Hpost).
    repeat split.
Qed.

Lemma upload_flag_and_status_witness :
  let file := {| file_name := lit "c.txt"; file_bytes := [99%N] |} in
  let env := backend (listing [doc (lit "c")]) (stored_as (lit "c") 12) unreachable in
  uploadStatus (final (upload env (Some file) initial)) =
    [10003%N] ++ lit " Uploaded: 12 chunks indexed" /\
  uploadStatus (final (upload offline (Some file) initial)) =
    [10007%N] ++ lit " Upload failed".
Proof.
  intros file env.
  destruct (upload_flag_and_status env initial file) as (_ & _ & _ & Hok & _).
  destruct (upload_flag_and_status offline initial file) as (_ & _ & _ & _ & Hko).
  split.
  - exact (proj1 (Hok {| Res.multi_docs := None; Res.filename := Some (lit "c");
                         Res.chunks := N_to_str 12; Res.answer := [];
                         Res.workflow_log := None; Res.session_id := None |}
                      eq_refl)).
  - exact (proj1 (Hko {| Err.response_ := None |} eq_refl)).
Defined.

(** X10.  An upload started with nothing selected, whose refresh lists
    the new document, selects that document twice: the refresh selects
    every listed id, the new one among them, and the upload then appends
    it again.  The selection is one longer than the registry, so the
    dropdown reads "custom" and not "all", and a simple-mode query carries
    no source even when the new document is the only one. *)
Theorem upload_into_empty_selection_selects_twice :
  forall env s file res resd name,
    selectedDocIds s = [] ->
    env (AxiosPost upload_url (FormData file)) = Fulfilled res ->
    Res.filename res = Some name -> name <> [] ->
    env (AxiosGet documents_url) = Fulfilled resd ->
    In name (map doc_id (or_empty (Res.multi_docs resd))) ->
    let s' := final (upload env (Some file) s) in
    documents s' = or_empty (Res.multi_docs resd) /\
    selectedDocIds s' = map doc_id (documents s') ++ [name] /\
    ~ NoDup (selectedDocIds s') /\
    length (selectedDocIds s') = S (length (documents s')) /\
    selectValue s' = lit "custom" /\
    payload (upd_useAgents (fun _ => false) s') =
      SimplePayload {| Ask.query := input s; Ask.top_k := 5;
                       Ask.source := None |}.
Proof.
  intros env s file res resd name Hsel Hpost Hname Hne Hget Hin s'. subst s'.
  rewrite (upload_fulfilled _ _ _ _ Hpost).
  assert (Hnew : new_id res = [name]).
  { unfold new_id. rewrite Hname. destruct name; [congruence | reflexivity]. }
  rewrite Hnew. cbv zeta. cbn [final].
  erewrite fetchDocuments_fulfilled by eassumption. cbn [final].
  rewrite Hsel. cbn [length Nat.eqb]. rewrite andb_true_r.
  destruct (or_empty (Res.multi_docs resd)) as [|d docs] eqn:Edocs; [destruct Hin|].
  cbn [length Nat.ltb Nat.leb].
  set (ids := map doc_id (d :: docs)) in *.
  assert (Hlen : length (ids ++ [name]) = S (length (d :: docs))).
  { rewrite length_app. unfold ids. rewrite length_map. simpl. lia. }
  split; [reflexivity | split; [reflexivity | split; [| split; [exact Hlen | split]]]].
  - cbn [selectedDocIds upd_uploading upd_selectedDocIds upd_documents].
    intros Hnd. apply NoDup_remove_2 with (l' := []) in Hnd.
    apply Hnd. now rewrite app_nil_r.
  - unfold selectValue.
    cbn [selectedDocIds documents upd_uploading upd_selectedDocIds upd_documents].
    rewrite Hlen. simpl length.
    replace (S (S (length docs)) =? S (length docs)) with false
      by (symmetry; apply Nat.eqb_neq; lia).
    reflexivity.
  - unfold payload.
    cbn [useAgents selectedDocIds input upd_useAgents upd_uploading
         upd_selectedDocIds upd_documents upd_uploadStatus].
    rewrite Hlen. reflexivity.
Qed.

Lemma upload_into_empty_selection_selects_twice_witness :
  let file := {| file_name := lit "c.txt"; file_bytes := [99%N] |} in
  let env := backend (listing [doc (lit "c")]) (stored_as (lit "c") 12) unreachable in
  selectedDocIds (final (upload env (Some file) initial)) = [lit "c"; lit "c"].
Proof.
  intros file env.
  destruct (upload_into_empty_selection_selects_twice env initial file
              {| Res.multi_docs := None; Res.filename := Some (lit "c");
                 Res.chunks := N_to_str 12; Res.answer := [];
                 Res.workflow_log := None; Res.session_id := None |}
              {| Res.multi_docs := Some [doc (lit "c")]; Res.filename := None;
                 Res.chunks := undefined_text; Res.answer := [];
                 Res.workflow_log := None; Res.session_id := None |}
              (lit "c") eq_refl eq_refl eq_refl) as (_ & Hs & _).
  - discriminate.
  - reflexivity.
  - now left.
  - exact Hs.
Defined.

(** ** Handlers that wait while others run *)

(** With nothing happening meanwhile, [run_among] is [run]. *)
Lemma run_among_alone env p s :
  run_among (fun _ st => st) env p s = run env p s.
Proof.
  revert s. induction p as [ | err | upd k IH | r k IH | cb _ ms k IH | k IH ];
    intros s; simpl; try reflexivity.
  - apply IH.
  - now rewrite IH.
  - now rewrite IH.
  - now rewrite IH.
Qed.

(** X11.  The refresh of an upload tests the selection of the render that
    started the upload, not the selection of the moment.  Whatever the
    other handlers did while the upload waited: if the upload was started
    with nothing selected and the list is not empty, the selection is
    replaced by all the listed ids, a selection made meanwhile is lost;
    if it was started with something selected, the selection of the
    moment is kept.  Either way the returned id is then appended. *)
Theorem refresh_in_upload_tests_older_selection :
  forall others env s file res resd,
    env (AxiosPost upload_url (FormData file)) = Fulfilled res ->
    env (AxiosGet documents_url) = Fulfilled resd ->
    let docs := or_empty (Res.multi_docs resd) in
    let s0 := upd_uploadStatus (fun _ => uploading_msg)
                (upd_uploading (fun _ => true) s) in
    let s1 := upd_uploadStatus (fun _ => uploaded_msg (Res.chunks res))
                (others (AxiosPost upload_url (FormData file)) s0) in
    let s2 := others (AxiosGet documents_url) s1 in
    let o := run_among others env (handleFileUpload s (Some file)) s in
    documents (final o) = docs /\
    selectedDocIds (final o) =
      (if (0 <? length docs) && (length (selectedDocIds s) =? 0)
       then map doc_id docs
       else selectedDocIds s2) ++ new_id res.
Proof.
  intros others env s file res resd Hpost Hget docs s0 s1 s2 o.
  subst o. unfold handleFileUpload, fetchDocuments, await_axios, new_id.
  simpl. rewrite Hpost. simpl. rewrite Hget. simpl.
  fold docs. fold s0. fold s1. fold s2.
  destruct ((0 <? length docs) && (length (selectedDocIds s) =? 0));
    destruct (Res.filename res) as [[|c name]|]; simpl;
    rewrite ?app_nil_r; split; reflexivity.
Qed.

Lemma refresh_in_upload_tests_older_selection_witness :
  let s := upd_documents (fun _ => [doc (lit "a"); doc (lit "b")]) initial in
  let file := {| file_name := lit "c.txt"; file_bytes := [99%N] |} in
  let env := backend (listing [doc (lit "a"); doc (lit "b"); doc (lit "c")])
               (stored_as (lit "c") 12) unreachable in
  let ticking := fun r st =>
                   match r with
                   | AxiosPost _ _ => final (toggle env (lit "a") st)
                   | _ => st
                   end in
  selectedDocIds (final (run_among ticking env (handleFileUpload s (Some file)) s))
  = [lit "a"; lit "b"; lit "c"; lit "c"].
Proof.
  intros s file env ticking.
  exact (proj2 (refresh_in_upload_tests_older_selection ticking env s file
                  {| Res.multi_docs := None; Res.filename := Some (lit "c");
                     Res.chunks := N_to_str 12; Res.answer := [];
                     Res.workflow_log := None; Res.session_id := None |}
                  {| Res.multi_docs := Some [doc (lit "a"); doc (lit "b"); doc (lit "c")];
                     Res.filename := None; Res.chunks := undefined_text; Res.answer := [];
                     Res.workflow_log := None; Res.session_id := None |}
                  eq_refl eq_refl)).
Defined.

Ltac to_pending s Hmode :=
  match goal with
  | |- context [?others (Delay 300%N) (upd_currentAgent ?f ?x)] =>
      replace (upd_currentAgent f x) with (pending s)
        by (apply state_eq; simpl; rewrite ?Hmode; auto)
  | |- context [?others (AxiosPost ?u ?b) (upd_currentAgent ?f ?x)] =>
      replace (upd_currentAgent f x) with (pending s)
        by (apply state_eq; simpl; rewrite ?Hmode; auto)
  end.

Lemma send_among_fulfilled others env s res :
  refused s = false ->
  env (query_request s) = Fulfilled res ->
  run_among others env (sendMessage s) s =
  {| final := answered s res (at_reply others s);
     effects := map Requested (send_requests s);
     completion := Normal |}.
Proof.
  intros Hguard Hpost. unfold sendMessage. fold (refused s). rewrite Hguard.
  unfold query_request in Hpost.
  unfold at_reply, send_requests, query_request, await_axios, await_timeout.
  destruct (useAgents s) eqn:Hmode; simpl; rewrite Hpost; simpl;
    to_pending s Hmode;
    match goal with
    | |- context [answered s res ?st0] => generalize st0; intros st
    end;
    unfold answered; rewrite Hmode;
    destruct (Res.workflow_log res);
    destruct (truthy_opt (Res.session_id res) && negb (truthy (sessionId s)));
    simpl; unfold emit; cbn [final effects completion];
    f_equal; apply state_eq; reflexivity.
Qed.

Lemma send_among_rejected others env s err :
  refused s = false ->
  env (query_request s) = Rejected err ->
  run_among others env (sendMessage s) s =
  {| final := failed err (at_reply others s);
     effects := map Requested (send_requests s) ++ [Logged];
     completion := Normal |}.
Proof.
  intros Hguard Hpost. unfold sendMessage. fold (refused s). rewrite Hguard.
  unfold query_request in Hpost.
  unfold at_reply, send_requests, query_request, await_axios, await_timeout.
  destruct (useAgents s) eqn:Hmode; simpl; rewrite Hpost; simpl;
    to_pending s Hmode;
    match goal with
    | |- context [failed err ?st0] => generalize st0; intros st
    end;
    unfold failed, emit; cbn [final effects completion];
    f_equal; apply state_eq; reflexivity.
Qed.

(** X12.  What an accepted send does when the reply to its query arrives,
    it does to the state of that moment, whatever the other handlers made
    of it meanwhile: the assistant message goes after the transcript as it
    then is, and registry, selection, input, mode and upload state are
    left as they then are.  Only the mode that decides whether the
    workflow log is taken, and the token that decides whether the reply's
    token is captured, are those of the render that sent the query. *)
Theorem reply_lands_on_state_of_the_moment :
  forall others env s,
    trim (input s) <> [] -> isProcessing s = false ->
    let o := run_among others env (sendMessage s) s in
    completion o = Normal /\
    (forall res,
       env (query_request s) = Fulfilled res ->
       final o = answered s res (at_reply others s)) /\
    (forall err,
       env (query_request s) = Rejected err ->
       final o = failed err (at_reply others s)).
Proof.
  intros others env s Hin Hproc o. subst o.
  assert (Hguard : refused s = false) by (apply refused_false; auto).
  split; [|split].
  - destruct (env (query_request s)) as [res | err] eqn:E.
    + now rewrite (send_among_fulfilled others env s res).
    + now rewrite (send_among_rejected others env s err).
  - intros res Hpost. now rewrite (send_among_fulfilled others env s res).
  - intros err Hpost. now rewrite (send_among_rejected others env s err).
Qed.

Lemma reply_lands_on_state_of_the_moment_witness :
  let s := upd_sessionId (fun _ => lit "t1")
             (upd_input (fun _ => lit "why?") initial) in
  let ticking := fun r st =>
                   match r with
                   | AxiosPost _ _ => final (toggle offline (lit "a") st)
                   | _ => st
                   end in
  selectedDocIds (final (run_among ticking offline (sendMessage s) s)) = [lit "a"] /\
  sessionId (final (run_among ticking offline (sendMessage s) s)) = lit "t1".
Proof.
  intros s ticking.
  assert (Hin : trim (input s) <> []) by discriminate.
  destruct (reply_lands_on_state_of_the_moment ticking offline s Hin eq_refl)
    as (_ & _ & Hfail).
  rewrite (Hfail {| Err.response_ := None |} eq_refl). split; reflexivity.
Defined.

(** X13.  "New Chat" pressed while a query is in flight does not stop it:
    when the answer comes it is the first and only message of the new
    transcript, and the processing flag goes down.  The reply's token
    becomes the token of the new conversation only if the query was sent
    without one; a query sent with a token leaves the new conversation
    without token, whatever the reply carries. *)
Theorem new_chat_while_query_in_flight :
  forall env s res,
    trim (input s) <> [] -> isProcessing s = false ->
    env (query_request s) = Fulfilled res ->
    let pressing := fun r st =>
                      match r with
                      | AxiosPost _ (Json _) => final (dispatch env ClickNewChat st)
                      | _ => st
                      end in
    let s' := final (run_among pressing env (sendMessage s) s) in
    messages s' = [{| role := assistant; content := Res.answer res |}] /\
    isProcessing s' = false /\
    (sessionId s <> [] -> sessionId s' = []) /\
    (sessionId s = [] -> sessionId s' = capture (Res.session_id res) []).
Proof.
  intros env s res Hin Hproc Hpost pressing s'. subst s'.
  assert (Hguard : refused s = false) by (apply refused_false; auto).
  rewrite (send_among_fulfilled pressing env s res Hguard Hpost).
  cbn [final].
  assert (Hat : at_reply pressing s = final (dispatch env ClickNewChat (pending s))).
  { unfold at_reply, send_requests, query_request.
    destruct (useAgents s); reflexivity. }
  rewrite Hat. unfold answered.
  cbn [messages sessionId isProcessing]. split; [reflexivity | split; [reflexivity|]].
  split.
  - intros Htoken. apply truthy_true in Htoken. rewrite Htoken.
    now rewrite andb_false_r.
  - intros Htoken. rewrite Htoken. reflexivity.
Qed.

Lemma new_chat_while_query_in_flight_witness :
  let s := upd_sessionId (fun _ => lit "t1")
             (upd_messages (fun _ => [{| role := user; content := lit "old" |}])
                (upd_input (fun _ => lit "why?") initial)) in
  let env := backend unreachable unreachable
               (answering (lit "because") None (Some (lit "t1"))) in
  let pressing := fun r st =>
                    match r with
                    | AxiosPost _ (Json _) => final (dispatch env ClickNewChat st)
                    | _ => st
                    end in
  messages (final (run_among pressing env (sendMessage s) s)) =
    [{| role := assistant; content := lit "because" |}] /\
  sessionId (final (run_among pressing env (sendMessage s) s)) = [].
Proof.
  intros s env pressing.
  assert (Hin : trim (input s) <> []) by discriminate.
  destruct (new_chat_while_query_in_flight env s
              {| Res.multi_docs := None; Res.filename := None; Res.chunks := undefined_text;
                 Res.answer := lit "because"; Res.workflow_log := None;
                 Res.session_id := Some (lit "t1") |} Hin eq_refl eq_refl)
    as (Hm & _ & Ht & _).
  split; [exact Hm | apply Ht; discriminate].
Defined.

(** ** The dropdown *)

(** X14.  Choosing in the dropdown.  "all" selects every document of the
    registry, and the dropdown then reads "all"; "custom" changes nothing;
    any other value becomes the whole selection, whether or not a
    document has it for id, and the dropdown then reads that value,
    unless the registry holds exactly one document, when it reads "all".
    A document whose id is "all" or "custom" cannot be chosen alone. *)
Theorem dropdown_choice :
  forall env s value,
    let s' := final (dispatch env (ChangeSelect value) s) in
    (value = lit "all" ->
     selectedDocIds s' = map doc_id (documents s) /\ selectValue s' = lit "all") /\
    (value = lit "custom" -> s' = s) /\
    (value <> lit "all" -> value <> lit "custom" ->
     selectedDocIds s' = [value] /\
     selectValue s' = if length (documents s) =? 1 then lit "all" else value) /\
    documents s' = documents s /\
    effects (dispatch env (ChangeSelect value) s) = [].
Proof.
  intros env s value s'. subst s'. unfold dispatch. cbn [handler].
  split; [|split; [|split; [|split]]].
  - intros ->. split; [reflexivity|].
    unfold selectValue. cbn. now rewrite length_map, Nat.eqb_refl.
  - intros ->. reflexivity.
  - intros Hall Hcustom.
    apply str_eqb_neq in Hall. apply str_eqb_neq in Hcustom.
    rewrite Hall, Hcustom. split; [reflexivity|].
    unfold selectValue. cbn.
    destruct (length (documents s)) as [|[|n]]; cbn; try reflexivity;
      destruct value; reflexivity.
  - destruct (str_eqb value (lit "all")); [reflexivity|].
    destruct (negb (str_eqb value (lit "custom"))); reflexivity.
  - destruct (str_eqb value (lit "all")); [reflexivity|].
    destruct (negb (str_eqb value (lit "custom"))); reflexivity.
Qed.

Lemma dropdown_choice_witness :
  let s := upd_selectedDocIds (fun _ => [lit "a"; lit "b"])
             (upd_documents (fun _ => [doc (lit "a"); doc (lit "b")]) initial) in
  selectValue s = lit "all" /\
  selectValue (final (dispatch offline (ChangeSelect (lit "b")) s)) = lit "b" /\
  selectedDocIds (final (dispatch offline (ChangeSelect (lit "all")) s)) =
    [lit "a"; lit "b"].
Proof.
  intros s.
  destruct (dropdown_choice offline s (lit "b")) as (_ & _ & Hone & _).
  destruct (dropdown_choice offline s (lit "all")) as (Hall & _).
  split; [reflexivity | split].
  - apply Hone; discriminate.
  - apply Hall. reflexivity.
Defined.

(** * The component as a system *)

Lemma advance_immediate p s :
  immediate p ->
  exists s' es c, advance p s = (s', es, Finished c).
Proof.
  revert s. induction p as [ | err | upd k IH | r k IH | cb _ ms k IH | k IH ];
    intros s H; simpl in *.
  - now exists s, [], Normal.
  - now exists s, [], (Threw err).
  - apply IH, H.
  - destruct H.
  - destruct (IH s (proj2 H)) as (s' & es & c & E). rewrite E.
    now exists s', (TimerSet ms cb :: es), c.
  - destruct (IH s H) as (s' & es & c & E). rewrite E.
    now exists s', (Logged :: es), c.
Qed.

Section Guard.
Variable flag : State -> bool.

(** A stretch of a program that leaves the flag alone leaves it as it
    was; what remains to run, and the timers set, leave it alone too. *)
Lemma advance_quiet p s :
  quiet flag p ->
  let '(s', es, w) := advance p s in
  flag s' = flag s /\
  (forall ev ev' cb, In (ev', cb) (timers_of ev es) -> quiet flag cb /\ immediate cb) /\
  match w with
  | Waiting _ k => forall reply, quiet flag (k reply)
  | Finished _ => True
  end.
Proof.
  revert s. induction p as [ | err | upd k IH | r k IH | cb _ ms k IH | k IH ];
    intros s H; simpl in *.
  - split; [reflexivity | split; [intros ? ? ? [] | exact I]].
  - split; [reflexivity | split; [intros ? ? ? [] | exact I]].
  - destruct H as [Hupd Hk]. specialize (IH (upd s) Hk).
    destruct (advance k (upd s)) as [[s' es] w].
    destruct IH as (Hf & Ht & Hw). rewrite Hf, Hupd. auto.
  - split; [reflexivity | split; [intros ? ? ? [] | exact H]].
  - destruct H as [Hcb Hk]. specialize (IH s Hk).
    destruct (advance k s) as [[s' es] w].
    destruct IH as (Hf & Ht & Hw). split; [exact Hf | split; [|exact Hw]].
    intros ev ev' cb0 [E | Hin]; [injection E as _ <-; exact Hcb | eauto].
  - specialize (IH s H). destruct (advance k s) as [[s' es] w].
    destruct IH as (Hf & Ht & Hw). auto.
Qed.

(** A stretch of a program that lowers the flag at its end either stops
    at a wait, the flag as it was, or ends, the flag down. *)
Lemma advance_lowers p s :
  lowers_at_end flag p ->
  let '(s', es, w) := advance p s in
  (forall ev ev' cb, In (ev', cb) (timers_of ev es) -> quiet flag cb /\ immediate cb) /\
  match w with
  | Waiting _ k => flag s' = flag s /\ forall reply, lowers_at_end flag (k reply)
  | Finished _ => flag s' = false
  end.
Proof.
  revert s. induction p as [ | err | upd k IH | r k IH | cb _ ms k IH | k IH ];
    intros s H; simpl in *; try (now destruct H).
  - destruct H as [[Hupd Hk] | [Hupd [-> | [err ->]]]].
    + specialize (IH (upd s) Hk). destruct (advance k (upd s)) as [[s' es] w].
      destruct IH as (Ht & Hw). split; [exact Ht|].
      destruct w as [c | r k']; [exact Hw|].
      destruct Hw as [Hf Hk']. rewrite Hf, Hupd. auto.
    + simpl. split; [intros ? ? ? [] | apply Hupd].
    + simpl. split; [intros ? ? ? [] | apply Hupd].
  - split; [intros ? ? ? [] | auto].
  - destruct H as [Hcb Hk]. specialize (IH s Hk).
    destruct (advance k s) as [[s' es] w].
    destruct IH as (Ht & Hw). split; [|exact Hw].
    intros ev ev' cb0 [E | Hin]; [injection E as _ <-; exact Hcb | eauto].
  - specialize (IH s H). destruct (advance k s) as [[s' es] w]. exact IH.
Qed.

Variable kind : Event -> bool.

Lemma in_flight_app ts ts' s tm s' tm' :
  in_flight kind {| ui := s; tasks := ts ++ ts'; timers := tm |} =
  in_flight kind {| ui := s; tasks := ts; timers := tm |}
  ++ in_flight kind {| ui := s'; tasks := ts'; timers := tm' |}.
Proof. unfold in_flight. simpl. apply filter_app. Qed.

(** A handler that leaves the flag alone, and is not of the kind or does
    not wait, keeps the system guarded. *)
Lemma guarded_settle_quiet ev s ts tm p :
  guarded_by flag kind {| ui := s; tasks := ts; timers := tm |} ->
  quiet flag p ->
  kind ev = false \/ immediate p ->
  guarded_by flag kind (settle ev ts tm (advance p s)).
Proof.
  intros (Hq & Hl & Ht & Hn) Hp Hk. simpl in *.
  pose proof (advance_quiet p s Hp) as Ha.
  assert (Hw : kind ev = false \/
               exists s' es c, advance p s = (s', es, Finished c)).
  { destruct Hk as [Hk | Hk]; [now left | right; now apply advance_immediate]. }
  destruct (advance p s) as [[s' es] w]. destruct Ha as (Hf & Hts & Hwq).
  unfold guarded_by, settle. simpl.
  split; [|split; [|split]].
  - intros t Hin Hkt reply. apply in_app_iff in Hin.
    destruct Hin as [Hin | Hin]; [now apply Hq|].
    destruct w as [c | r k]; [destruct Hin|].
    destruct Hin as [<- | []]. apply Hwq.
  - intros t Hin Hkt reply. apply in_app_iff in Hin.
    destruct Hin as [Hin | Hin]; [now apply Hl|].
    destruct w as [c | r k]; [destruct Hin|].
    destruct Hin as [<- | []]. simpl in Hkt.
    destruct Hw as [Hw | (s0 & es0 & c & Hw)]; congruence.
  - intros ev' cb Hin. apply in_app_iff in Hin.
    destruct Hin as [Hin | Hin]; [eauto | eapply Hts; eauto].
  - rewrite (in_flight_app _ _ _ _ s' []), length_app.
    unfold in_flight at 1. unfold in_flight in Hn. simpl in *.
    rewrite Hn, Hf.
    destruct w as [c | r k]; [simpl; lia|].
    destruct Hw as [Hw | (s0 & es0 & c & Hw)]; [|congruence].
    unfold in_flight. simpl. rewrite Hw. simpl. lia.
Qed.

(** A handler of the kind that starts with the flag down, raises it and
    waits keeps the system guarded. *)
Lemma guarded_settle_raise ev s ts tm s' r k :
  guarded_by flag kind {| ui := s; tasks := ts; timers := tm |} ->
  kind ev = true -> flag s = false -> flag s' = true ->
  (forall reply, lowers_at_end flag (k reply)) ->
  guarded_by flag kind (settle ev ts tm (s', [], Waiting r k)).
Proof.
  intros (Hq & Hl & Ht & Hn) Hk Hs Hs' Hlow. simpl in *.
  unfold guarded_by, settle. simpl. split; [|split; [|split]].
  - intros t Hin Hkt reply. apply in_app_iff in Hin.
    destruct Hin as [Hin | [<- | []]]; [now apply Hq | simpl in Hkt; congruence].
  - intros t Hin Hkt reply. apply in_app_iff in Hin.
    destruct Hin as [Hin | [<- | []]]; [now apply Hl | apply Hlow].
  - intros ev' cb Hin. rewrite app_nil_r in Hin. eauto.
  - rewrite (in_flight_app _ _ _ _ s' []), length_app.
    unfold in_flight in *. simpl in *. rewrite Hn, Hs, Hs', Hk. reflexivity.
Qed.

(** The handler in flight, resumed, keeps the system guarded: it waits
    again, the flag still up, or ends, the flag down. *)
Lemma guarded_settle_resume s before t after tm reply :
  guarded_by flag kind {| ui := s; tasks := before ++ t :: after; timers := tm |} ->
  guarded_by flag kind
    (settle (origin t) (before ++ after) tm (advance (resume t reply) s)).
Proof.
  intros (Hq & Hl & Ht & Hn). simpl in *.
  assert (Hq' : forall t', In t' (before ++ after) -> kind (origin t') = false ->
                  forall reply', quiet flag (resume t' reply')).
  { intros t' Hin. apply Hq. apply in_app_iff in Hin. apply in_app_iff.
    destruct Hin; [now left | right; now right]. }
  assert (Hl' : forall t', In t' (before ++ after) -> kind (origin t') = true ->
                  forall reply', lowers_at_end flag (resume t' reply')).
  { intros t' Hin. apply Hl. apply in_app_iff in Hin. apply in_app_iff.
    destruct Hin; [now left | right; now right]. }
  assert (Hin : In t (before ++ t :: after)) by (apply in_app_iff; right; now left).
  unfold in_flight in Hn. simpl in Hn.
  rewrite filter_app, length_app in Hn. simpl in Hn.
  destruct (kind (origin t)) eqn:Hk.
  - (* the handler of the kind *)
    simpl in Hn.
    assert (Hup : flag s = true) by (destruct (flag s); [reflexivity | lia]).
    rewrite Hup in Hn.
    assert (Hrest : length (filter (fun t' => kind (origin t')) (before ++ after)) = 0)
      by (rewrite filter_app, length_app; lia).
    pose proof (advance_lowers (resume t reply) s (Hl t Hin Hk reply)) as Ha.
    destruct (advance (resume t reply) s) as [[s' es] w].
    destruct Ha as (Hts & Hw). unfold guarded_by, settle. simpl.
    split; [|split; [|split]].
    + intros t' Hin' Hkt reply'. apply in_app_iff in Hin'.
      destruct Hin' as [Hin' | Hin']; [now apply Hq'|].
      destruct w as [c | r k]; [destruct Hin'|].
      destruct Hin' as [<- | []]. simpl in Hkt. congruence.
    + intros t' Hin' Hkt reply'. apply in_app_iff in Hin'.
      destruct Hin' as [Hin' | Hin']; [now apply Hl'|].
      destruct w as [c | r k]; [destruct Hin'|].
      destruct Hin' as [<- | []]. apply Hw.
    + intros ev' cb Hin'. apply in_app_iff in Hin'.
      destruct Hin' as [Hin' | Hin']; [eauto | eapply Hts; eauto].
    + rewrite (in_flight_app _ _ _ _ s' []), length_app.
      unfold in_flight. simpl. rewrite Hrest.
      destruct w as [c | r k]; simpl.
      * now rewrite Hw.
      * destruct Hw as [Hf _]. now rewrite Hk, Hf, Hup.
  - (* any other handler *)
    apply guarded_settle_quiet; [| now apply Hq | now left].
    unfold guarded_by. simpl.
    split; [exact Hq' | split; [exact Hl' | split; [exact Ht |]]].
    unfold in_flight. simpl. rewrite filter_app, length_app. exact Hn.
Qed.

Hypothesis flag_down_at_first : flag initial = false.

Hypothesis mount_is_other : kind Mount = false.

Hypothesis others_quiet :
  forall ev render, kind ev = false -> quiet flag (handler ev render).

Hypothesis starters :
  forall ev s,
    kind ev = true -> offered s ev = true ->
    advance (handler ev s) s = (s, [], Finished Normal) \/
    exists s' r k,
      advance (handler ev s) s = (s', [], Waiting r k) /\
      flag s = false /\ flag s' = true /\
      forall reply, lowers_at_end flag (k reply).

(** Every state the system reaches is guarded. *)
Lemma reachable_guarded sys : reachable sys -> guarded_by flag kind sys.
Proof.
  induction 1 as [ | sys sys' Hreach IH Hstep ].
  - unfold boot. apply guarded_settle_quiet.
    + unfold guarded_by. simpl. rewrite flag_down_at_first.
      repeat split; intros; contradiction.
    + now apply others_quiet.
    + now left.
  - destruct Hstep as [sys ev Hoff | sys before t after reply Hts
                      | sys before ev cb after Htm].
    + destruct sys as [s0 ts0 tm0]. simpl in *.
      destruct (kind ev) eqn:Hk.
      * destruct (starters ev s0 Hk Hoff) as [E | (s' & r & k & E & Hd & Hu & Hl)];
          rewrite E.
        -- unfold settle. simpl. now rewrite !app_nil_r.
        -- now apply guarded_settle_raise with (s := s0).
      * apply guarded_settle_quiet; [exact IH | now apply others_quiet | now left].
    + destruct sys as [s0 ts0 tm0]. simpl in *. subst ts0.
      now apply guarded_settle_resume.
    + destruct sys as [s0 ts0 tm0]. simpl in *. subst tm0.
      destruct IH as (Hq & Hl & Ht & Hn). simpl in *.
      destruct (Ht ev cb) as [Hcb Him]; [apply in_app_iff; right; now left|].
      apply guarded_settle_quiet; [| exact Hcb | now right].
      unfold guarded_by. simpl.
      split; [exact Hq | split; [exact Hl | split; [| exact Hn]]].
      intros ev' cb' Hin. apply (Ht ev' cb'). apply in_app_iff in Hin.
      apply in_app_iff. destruct Hin; [now left | right; now right].
Qed.
End Guard.

(** Settle what a handler does to a flag, case by case. *)
Ltac by_cases :=
  simpl;
  repeat match goal with
         | |- True => exact I
         | |- _ /\ _ => split
         | |- forall _, _ => intro
         | |- _ = _ => reflexivity
         | |- _ \/ _ =>
             first [ left; split; [intros; reflexivity |]
                   | right; split;
                     [ intros; reflexivity
                     | first [left; reflexivity | right; eexists; reflexivity] ] ]
         | |- context [match ?x with _ => _ end] => destruct x; simpl
         end.

Lemma sendMessage_quiet_for_uploading render :
  quiet uploading (sendMessage render).
Proof.
  unfold sendMessage, await_axios, await_timeout. by_cases.
Qed.

Lemma fetchDocuments_quiet flag render :
  (forall f s, flag (upd_documents f s) = flag s) ->
  (forall f s, flag (upd_selectedDocIds f s) = flag s) ->
  quiet flag (fetchDocuments render).
Proof.
  intros Hd Hs. unfold fetchDocuments, await_axios. simpl.
  intros [res | err]; simpl; [|exact I].
  split; [intros; apply Hd|].
  destruct ((0 <? length (or_empty (Res.multi_docs res)))
            && (length (selectedDocIds render) =? 0)); simpl; [|exact I].
  split; [intros; apply Hs | exact I].
Qed.

Lemma handleFileUpload_quiet_for_isProcessing render file :
  quiet isProcessing (handleFileUpload render file).
Proof.
  unfold handleFileUpload, fetchDocuments, await_axios. by_cases.
Qed.

Lemma others_quiet_for_isProcessing ev render :
  is_send ev = false -> quiet isProcessing (handler ev render).
Proof.
  destruct ev; try discriminate; intros _; cbn [handler].
  - now apply fetchDocuments_quiet.
  - by_cases.
  - apply handleFileUpload_quiet_for_isProcessing.
  - by_cases.
  - by_cases.
  - by_cases.
  - by_cases.
  - by_cases.
  - by_cases.
  - by_cases.
  - by_cases.
Qed.

Lemma others_quiet_for_uploading ev render :
  is_upload ev = false -> quiet uploading (handler ev render).
Proof.
  destruct ev; try discriminate; intros _; cbn [handler].
  - now apply fetchDocuments_quiet.
  - by_cases.
  - by_cases.
  - by_cases.
  - by_cases.
  - by_cases.
  - by_cases.
  - by_cases.
  - by_cases.
  - by_cases.
  - destruct (str_eqb key (lit "Enter") && negb (isProcessing render));
      [apply sendMessage_quiet_for_uploading | exact I].
  - apply sendMessage_quiet_for_uploading.
Qed.

Lemma sendMessage_starts s :
  advance (sendMessage s) s = (s, [], Finished Normal) \/
  exists s' r k,
    advance (sendMessage s) s = (s', [], Waiting r k) /\
    isProcessing s = false /\ isProcessing s' = true /\
    forall reply, lowers_at_end isProcessing (k reply).
Proof.
  destruct (refused s) eqn:Hguard.
  - left. now rewrite sendMessage_refused.
  - right. apply refused_false in Hguard as Hacc. destruct Hacc as [_ Hproc].
    unfold sendMessage. fold (refused s). rewrite Hguard.
    unfold await_axios, await_timeout.
    destruct (useAgents s); simpl; do 3 eexists;
      (split; [reflexivity | split; [exact Hproc | split; [reflexivity|]]]);
      by_cases.
Qed.

Lemma handleFileUpload_starts s file :
  uploading s = false ->
  advance (handleFileUpload s file) s = (s, [], Finished Normal) \/
  exists s' r k,
    advance (handleFileUpload s file) s = (s', [], Waiting r k) /\
    uploading s = false /\ uploading s' = true /\
    forall reply, lowers_at_end uploading (k reply).
Proof.
  intros Hup. destruct file as [file|]; [right | left; reflexivity].
  unfold handleFileUpload, fetchDocuments, await_axios. simpl.
  do 3 eexists.
  split; [reflexivity | split; [exact Hup | split; [reflexivity|]]].
  by_cases.
Qed.

(** X15.  At most one query is in flight, and the processing flag tells
    when: in every state the component reaches, through any interleaving
    of events, replies and timers, the handlers started by a send that
    still wait number one if the flag is up and none if it is down. *)
Theorem one_query_in_flight :
  forall sys,
    reachable sys ->
    length (in_flight is_send sys) = (if isProcessing (ui sys) then 1 else 0) /\
    length (in_flight is_send sys) <= 1.
Proof.
  intros sys Hreach.
  assert (H : guarded_by isProcessing is_send sys).
  { apply (reachable_guarded isProcessing is_send eq_refl eq_refl
             others_quiet_for_isProcessing); [|exact Hreach].
    intros ev s Hk _. destruct ev; try discriminate Hk; cbn [handler].
    - destruct (str_eqb key (lit "Enter") && negb (isProcessing s));
        [apply sendMessage_starts | left; reflexivity].
    - apply sendMessage_starts. }
  destruct H as (_ & _ & _ & Hn). split; [exact Hn|].
  rewrite Hn. destruct (isProcessing (ui sys)); lia.
Qed.

Lemma one_query_in_flight_witness :
  let typed := settle (ChangeInput (lit "why?")) (tasks boot) (timers boot)
                 (advance (handler (ChangeInput (lit "why?")) (ui boot)) (ui boot)) in
  let sent := settle ClickSend (tasks typed) (timers typed)
                (advance (handler ClickSend (ui typed)) (ui typed)) in
  isProcessing (ui sent) = true /\ length (tasks sent) = 2 /\
  length (in_flight is_send sent) = 1.
Proof.
  intros typed sent.
  assert (Hreach : reachable sent).
  { apply reachable_step with (sys := typed).
    - apply reachable_step with (sys := boot); [apply reachable_boot|].
      apply (step_event boot (ChangeInput (lit "why?"))). reflexivity.
    - apply (step_event typed ClickSend). reflexivity. }
  split; [reflexivity | split; [reflexivity|]].
  exact (proj1 (one_query_in_flight sent Hreach)).
Defined.

(** X16.  At most one upload is in flight, and the busy flag tells when:
    the handler itself does not test the flag, but the view disables the
    file input while it is up, so in every state the component reaches
    the uploads that still wait number one if the flag is up and none if
    it is down. *)
Theorem one_upload_in_flight :
  forall sys,
    reachable sys ->
    length (in_flight is_upload sys) = (if uploading (ui sys) then 1 else 0) /\
    length (in_flight is_upload sys) <= 1.
Proof.
  intros sys Hreach.
  assert (H : guarded_by uploading is_upload sys).
  { apply (reachable_guarded uploading is_upload eq_refl eq_refl
             others_quiet_for_uploading); [|exact Hreach].
    intros ev s Hk Hoff. destruct ev; try discriminate Hk; cbn [handler].
    apply handleFileUpload_starts. cbn [offered] in Hoff.
    now apply negb_true_iff in Hoff. }
  destruct H as (_ & _ & _ & Hn). split; [exact Hn|].
  rewrite Hn. destruct (uploading (ui sys)); lia.
Qed.

Lemma one_upload_in_flight_witness :
  let file := {| file_name := lit "c.txt"; file_bytes := [99%N] |} in
  let picked := settle (ChangeFile (Some file)) (tasks boot) (timers boot)
                  (advance (handler (ChangeFile (Some file)) (ui boot)) (ui boot)) in
  uploading (ui picked) = true /\
  offered (ui picked) (ChangeFile (Some file)) = false /\
  length (in_flight is_upload picked) = 1.
Proof.
  intros file picked.
  assert (Hreach : reachable picked).
  { apply reachable_step with (sys := boot); [apply reachable_boot|].
    apply (step_event boot (ChangeFile (Some file))). reflexivity. }
  split; [reflexivity | split; [reflexivity|]].
  exact (proj1 (one_upload_in_flight picked Hreach)).
Defined.

(** * Further properties of single events *)

(** X17.  A send is accepted exactly when no query is in flight and the
    input holds a code unit that is not white space; the Send button is
    enabled exactly then, and exactly then is the query posted. *)
Theorem send_accepted_exactly_when :
  forall env s,
    (refused s = false <->
     isProcessing s = false /\
     exists c, In c (input s) /\ is_white_space c = false) /\
    offered s ClickSend = negb (refused s) /\
    (In (query_request s) (requests (send env s)) <-> refused s = false).
Proof.
  intros env s. split; [|split].
  - rewrite refused_false. split.
    + intros [Hin Hproc]. split; [exact Hproc|].
      destruct (forallb is_white_space (input s)) eqn:E.
      * apply trim_nil in E. contradiction.
      * assert (Hex : existsb (fun c => negb (is_white_space c)) (input s) = true).
        { clear -E. induction (input s) as [|c l IH]; simpl in *; [discriminate|].
          destruct (is_white_space c); simpl in *; auto. }
        apply existsb_exists in Hex. destruct Hex as (c & Hc & Hws).
        exists c. split; [exact Hc | now apply negb_true_iff].
    + intros [Hproc (c & Hc & Hws)]. split; [|exact Hproc].
      intros Hblank. apply trim_nil in Hblank.
      rewrite forallb_forall in Hblank. rewrite (Hblank c Hc) in Hws. discriminate.
  - unfold refused. cbn [offered]. f_equal. apply orb_comm.
  - rewrite send_requests_run. destruct (refused s); split.
    + intros [].
    + discriminate.
    + reflexivity.
    + intros _. unfold send_requests. destruct (useAgents s); simpl; auto.
Qed.

Lemma dispatch_keeps_token env ev s :
  is_send ev = false -> ev <> ClickNewChat ->
  sessionId (final (dispatch env ev s)) = sessionId s.
Proof.
  intros Hk Hev. unfold dispatch.
  destruct ev as [ | | file | value | | | | | docId | checked | value | key | ];
    try discriminate Hk; try reflexivity; cbn [handler].
  - apply fetchDocuments_sessionId.
  - congruence.
  - apply upload_sessionId.
  - destruct (str_eqb value (lit "all")); [reflexivity|].
    destruct (negb (str_eqb value (lit "custom"))); reflexivity.
Qed.

(** X18.  A conversation gets its token from a reply and from nothing
    else: when an event finds no token and leaves one, the event is an
    accepted send, its query was answered, and the token is the session
    id the answer carried. *)
Theorem token_comes_from_reply :
  forall env ev s,
    sessionId s = [] ->
    sessionId (final (dispatch env ev s)) <> [] ->
    is_send ev = true /\ refused s = false /\
    exists res,
      env (query_request s) = Fulfilled res /\
      Res.session_id res = Some (sessionId (final (dispatch env ev s))).
Proof.
  intros env ev s Hempty Hset.
  assert (Hsend : sessionId (final (send env s)) <> [] ->
            refused s = false /\
            exists res,
              env (query_request s) = Fulfilled res /\
              Res.session_id res = Some (sessionId (final (send env s)))).
  { intros H. destruct (refused s) eqn:Hguard.
    - rewrite send_refused in H by assumption. simpl in H. congruence.
    - split; [reflexivity|].
      destruct (env (query_request s)) as [res | err] eqn:E.
      + exists res. split; [reflexivity|].
        rewrite (send_fulfilled env s res) in * by assumption.
        cbn [final sessionId] in *. rewrite Hempty in *. unfold capture in *.
        destruct (Res.session_id res) as [id|]; simpl in *; [|congruence].
        destruct (truthy id); simpl in *; [reflexivity | congruence].
      + rewrite (send_rejected env s err) in H by assumption.
        simpl in H. congruence. }
  destruct (is_send ev) eqn:Hk.
  - split; [reflexivity|].
    destruct ev; try discriminate Hk; unfold dispatch in *; cbn [handler] in *.
    + destruct (str_eqb key (lit "Enter") && negb (isProcessing s));
        [now apply Hsend | simpl in Hset; congruence].
    + now apply Hsend.
  - exfalso. apply Hset.
    destruct ev; try discriminate Hk; try reflexivity;
      rewrite dispatch_keeps_token by (reflexivity || discriminate); exact Hempty.
Qed.

Lemma token_comes_from_reply_witness :
  let s := upd_input (fun _ => lit "why?") initial in
  let env := backend unreachable unreachable
               (answering (lit "because") None (Some (lit "A"))) in
  exists res,
    env (query_request s) = Fulfilled res /\
    Res.session_id res = Some (lit "A").
Proof.
  intros s env.
  destruct (token_comes_from_reply env ClickSend s eq_refl) as (_ & _ & H);
    [discriminate | exact H].
Defined.

(** X19.  Choosing documents never calls the backend and touches nothing
    but the selection: the dropdown, "All", "None" and the checkboxes
    leave every other field of the state as it was, issue no request and
    set no timer.  "All" leaves the ids of the registry selected, in its
    order; "None" leaves nothing selected. *)
Theorem choosing_documents_calls_nothing :
  forall env ev s,
    is_selection ev = true ->
    let o := dispatch env ev s in
    effects o = [] /\
    final o = upd_selectedDocIds (fun _ => selectedDocIds (final o)) s /\
    (ev = ClickAll -> selectedDocIds (final o) = map doc_id (documents s)) /\
    (ev = ClickNone -> selectedDocIds (final o) = []).
Proof.
  intros env ev s Hk o. subst o. unfold dispatch.
  destruct ev as [ | | file | value | | | | | docId | checked | value | key | ];
    try discriminate Hk; cbn [handler];
    try (repeat split; discriminate).
  - destruct (str_eqb value (lit "all")); [repeat split; discriminate|].
    destruct (negb (str_eqb value (lit "custom")));
      (split; [reflexivity | split; [| split; discriminate]]); [reflexivity|].
    simpl. now destruct s.
Qed.

Lemma choosing_documents_calls_nothing_witness :
  let s := upd_documents (fun _ => [doc (lit "a"); doc (lit "b")]) initial in
  selectedDocIds (final (dispatch offline ClickAll s)) = [lit "a"; lit "b"] /\
  effects (dispatch offline (ChangeCheckbox (lit "a")) s) = [].
Proof.
  intros s.
  destruct (choosing_documents_calls_nothing offline ClickAll s eq_refl)
    as (_ & _ & Hall & _).
  destruct (choosing_documents_calls_nothing offline (ChangeCheckbox (lit "a")) s eq_refl)
    as (Hnone & _).
  split; [apply Hall; reflexivity | exact Hnone].
Defined.

(** X20.  Toggling a document twice selects the same documents as
    before, and unticking a document removes every occurrence of its id:
    after it the id is not selected, however many times it was listed. *)
Theorem toggle_twice_restores_selection :
  forall env docId s,
    let once := final (toggle env docId s) in
    let twice := final (toggle env docId once) in
    (forall x, In x (selectedDocIds twice) <-> In x (selectedDocIds s)) /\
    (In docId (selectedDocIds s) -> ~ In docId (selectedDocIds once)) /\
    (NoDup (selectedDocIds s) -> NoDup (selectedDocIds once)).
Proof.
  intros env docId s once twice. subst once twice.
  rewrite !toggle_selection. split; [|split].
  - intros x. rewrite !In_toggled.
    destruct (in_dec str_eq_dec docId (selectedDocIds s));
      destruct (str_eq_dec x docId) as [-> | Hne]; tauto.
  - intros Hin. rewrite In_toggled. tauto.
  - intros Hnd. destruct (includes (selectedDocIds s) docId) eqn:E.
    + now apply NoDup_filter.
    + apply NoDup_app; [exact Hnd | repeat constructor; intros [] |].
      intros x Hin [<- | []]. apply includes_In in Hin. congruence.
Qed.

Lemma toggle_twice_restores_selection_witness :
  let s := upd_selectedDocIds (fun _ => [lit "c"; lit "c"]) initial in
  selectedDocIds (final (toggle offline (lit "c") s)) = [].
Proof.
  intros s.
  destruct (toggle_twice_restores_selection offline (lit "c") s) as (_ & Hoff & _).
  destruct (selectedDocIds (final (toggle offline (lit "c") s))) as [|x l] eqn:E;
    [reflexivity|].
  exfalso. apply Hoff; [now left|].
  vm_compute in E. discriminate E.
Defined.

(** X21.  The "Custom Selection" panel names at most three documents and
    counts the rest: with every selected id in the registry, the names
    shown and the count of "more" add up to the size of the selection; a
    selected id the registry lacks is counted in the size but named
    nowhere. *)
Theorem preview_names_at_most_three :
  forall s,
    let more := match previewMore s with Some n => n | None => 0 end in
    length (previewNames s) <= 3 /\
    length (previewNames s) + more <= length (selectedDocIds s) /\
    (selection_in_registry s ->
     length (previewNames s) + more = length (selectedDocIds s)) /\
    (forall name, In name (previewNames s) ->
       exists d, In d (documents s) /\ original_filename d = name /\
                 In (doc_id d) (firstn 3 (selectedDocIds s))).
Proof.
  intros s more. subst more. unfold previewNames, previewMore.
  set (line := fun docId =>
                 match find (fun d => str_eqb (doc_id d) docId) (documents s) with
                 | Some d => [original_filename d]
                 | None => []
                 end).
  assert (Hle : forall l, length (flat_map line l) <= length l).
  { induction l as [|x l IH]; simpl; [lia|]. rewrite length_app.
    unfold line at 1. destruct (find _ (documents s)); simpl; lia. }
  assert (Heq : forall l, incl l (registry_ids s) ->
                  length (flat_map line l) = length l).
  { induction l as [|x l IH]; intros Hin; simpl; [reflexivity|].
    rewrite length_app, IH by (intros y Hy; apply Hin; now right).
    unfold line at 1.
    destruct (find (fun d => str_eqb (doc_id d) x) (documents s)) eqn:E;
      [reflexivity|].
    exfalso. assert (Hx : In x (registry_ids s)) by (apply Hin; now left).
    apply in_map_iff in Hx. destruct Hx as (d & Hd & Hdin).
    apply (find_none _ _ E) in Hdin. rewrite Hd, str_eqb_refl in Hdin.
    discriminate. }
  pose proof (length_firstn 3 (selectedDocIds s)) as Hfirst.
  pose proof (Hle (firstn 3 (selectedDocIds s))) as Hshown.
  split; [lia | split; [| split]].
  - destruct (3 <? length (selectedDocIds s)) eqn:E;
      [apply Nat.ltb_lt in E | apply Nat.ltb_ge in E]; lia.
  - intros Hin. rewrite Heq.
    + destruct (3 <? length (selectedDocIds s)) eqn:E;
        [apply Nat.ltb_lt in E | apply Nat.ltb_ge in E]; lia.
    + intros x Hx. apply Hin.
      rewrite <- (firstn_skipn 3 (selectedDocIds s)). apply in_app_iff. now left.
  - intros name Hname. apply in_flat_map in Hname.
    destruct Hname as (docId & Hid & Hname). unfold line in Hname.
    destruct (find (fun d => str_eqb (doc_id d) docId) (documents s)) as [d|] eqn:E;
      [|destruct Hname].
    destruct Hname as [<- | []]. apply find_some in E. destruct E as [Hd Hm].
    apply str_eqb_eq in Hm. exists d. repeat split; [exact Hd | now rewrite Hm].
Qed.

Lemma preview_names_at_most_three_witness :
  let s := upd_selectedDocIds (fun _ => [lit "a"; lit "b"])
             (upd_documents (fun _ => [doc (lit "a"); doc (lit "b"); doc (lit "c")])
                initial) in
  length (previewNames s) + 0 = 2.
Proof.
  intros s.
  destruct (preview_names_at_most_three s) as (_ & _ & Hall & _).
  apply Hall. intros x [<- | [<- | []]]; [now left | right; now left].
Defined.


(** * A refresh and a selection made meanwhile *)

Lemma step_after_event ev sys :
  offered (ui sys) ev = true -> step sys (after_event ev sys).
Proof. apply step_event. Qed.

Lemma nth_error_middle {A} (l : list A) i x :
  nth_error l i = Some x -> l = firstn i l ++ x :: skipn (S i) l.
Proof.
  revert i. induction l as [|a l IH]; intros [|i] H; simpl in *;
    try discriminate.
  - now injection H as ->.
  - f_equal. now apply IH.
Qed.

Lemma step_after_reply i reply sys t :
  nth_error (tasks sys) i = Some t -> step sys (after_reply i reply sys).
Proof.
  intros H. unfold after_reply. rewrite H.
  apply step_reply. now apply nth_error_middle.
Qed.

(** C8, where the code departs from it.  The registry lists a and b and
    nothing is selected ("None"); a file is picked, and while its POST is
    in flight the box of a is ticked; the POST is answered and the upload
    issues its refresh.  That state is one the component reaches, with a
    selected and the refresh waiting.  The refresh is answered with the
    list b, c: it replaces the selection [a] by the listed ids, a is no
    longer selected, and the upload then appends c.  The guard of
    [fetchDocuments] has tested the selection of the render that started
    the upload, which was empty. *)
Theorem refresh_overrides_selection_made_meanwhile :
  let file := {| file_name := lit "c.txt"; file_bytes := [99%N] |} in
  let listed := after_reply 0 (listing [doc (lit "a"); doc (lit "b")]) boot in
  let emptied := after_event ClickNone (after_event ClickSelectSpecific listed) in
  let picked := after_event (ChangeFile (Some file)) emptied in
  let ticked := after_event (ChangeCheckbox (lit "a")) picked in
  let stored := after_reply 0 (stored_as (lit "c") 12) ticked in
  let refreshed := after_reply 0 (listing [doc (lit "b"); doc (lit "c")]) stored in
  selectedDocIds (ui listed) = [lit "a"; lit "b"] /\
  selectedDocIds (ui emptied) = [] /\
  reachable stored /\
  map awaiting (tasks stored) = [AxiosGet documents_url] /\
  selectedDocIds (ui stored) = [lit "a"] /\
  step stored refreshed /\
  documents (ui refreshed) = [doc (lit "b"); doc (lit "c")] /\
  selectedDocIds (ui refreshed) = [lit "b"; lit "c"; lit "c"] /\
  ~ In (lit "a") (selectedDocIds (ui refreshed)).
Proof.
  intros file listed emptied picked ticked stored refreshed.
  assert (Hlisted : reachable listed).
  { eapply reachable_step; [apply reachable_boot|].
    eapply step_after_reply. reflexivity. }
  assert (Hemptied : reachable emptied).
  { eapply reachable_step;
      [eapply reachable_step; [exact Hlisted|] |];
      apply step_after_event; reflexivity. }
  assert (Hticked : reachable ticked).
  { eapply reachable_step;
      [eapply reachable_step; [exact Hemptied|] |];
      apply step_after_event; reflexivity. }
  assert (Hstored : reachable stored).
  { eapply reachable_step; [exact Hticked|].
    eapply step_after_reply. reflexivity. }
  repeat (split; [reflexivity || assumption |]).
  split; [eapply step_after_reply; reflexivity|].
  repeat (split; [reflexivity|]).
  intros [H | [H | [H | []]]]; discriminate H.
Qed.
